(** * Echo voice assistant (echo.py): a shallow embedding and its properties

    The assistant of [echo.py] is one class, [EchoAI], whose methods speak
    through a text-to-speech engine, listen through a microphone behind a
    wake word, classify the command by keyword containment and run one
    handler per keyword.

    The embedding keeps the shape of the Python code:
    - Python [str] values are [string]s whose characters are the code points
      below 256; [lower], [strip], [replace] and [in] are written out on them;
    - the object's fields ([config], [engine], [history], [running]) are a
      record threaded through a state-and-exception monad;
    - everything outside the program (the speech sink, the microphone and the
      recogniser, the random generator, the browser and the shell, the
      weather service, the clock) is a [World] of oracles, and every call
      that reaches it leaves an [Event] in a trace. *)

From Stdlib Require Import ZArith QArith List String Ascii Bool Arith Lia.
From Stdlib Require Import DecimalString.
Import ListNotations.

Close Scope Q_scope.
Open Scope string_scope.
Open Scope nat_scope.

(** ** Python strings *)

Module PyStr.

(** [str.isspace] on one character with code point below 256. *)
Definition isspace (c : ascii) : bool :=
  let n := nat_of_ascii c in
  ((9 <=? n) && (n <=? 13)) || ((28 <=? n) && (n <=? 32))
  || (n =? 133) || (n =? 160).

(** [str.lower] on one character: A-Z, and the upper-case letters of the
    Latin-1 block (192-222 without the multiplication sign 215). *)
Definition lower_char (c : ascii) : ascii :=
  let n := nat_of_ascii c in
  if ((65 <=? n) && (n <=? 90))
     || ((192 <=? n) && (n <=? 222) && negb (n =? 215))
  then ascii_of_nat (n + 32) else c.

Fixpoint lower (s : string) : string :=
  match s with
  | EmptyString => EmptyString
  | String c s' => String (lower_char c) (lower s')
  end.

Fixpoint lstrip (s : string) : string :=
  match s with
  | EmptyString => EmptyString
  | String c s' => if isspace c then lstrip s' else s
  end.

Fixpoint rstrip (s : string) : string :=
  match s with
  | EmptyString => EmptyString
  | String c s' =>
      match rstrip s' with
      | EmptyString => if isspace c then EmptyString else String c EmptyString
      | r => String c r
      end
  end.

(** [s.strip()] *)
Definition strip (s : string) : string := rstrip (lstrip s).

(** [s.startswith(p)] *)
Fixpoint startswith (p s : string) : bool :=
  match p, s with
  | EmptyString, _ => true
  | String _ _, EmptyString => false
  | String a p', String b s' => Ascii.eqb a b && startswith p' s'
  end.

(** [needle in hay] *)
Fixpoint str_in (needle hay : string) : bool :=
  startswith needle hay
  || match hay with
     | EmptyString => false
     | String _ hay' => str_in needle hay'
     end.

(** [s.replace(old, new)]: the occurrences of [old] are found from the
    left and do not overlap; [skip] counts the characters of a match that
    are still to be dropped. *)
Fixpoint replace_from (skip : nat) (old new s : string) : string :=
  match s with
  | EmptyString => EmptyString
  | String c s' =>
      match skip with
      | S k => replace_from k old new s'
      | O =>
          if startswith old s
          then new ++ replace_from (String.length old - 1) old new s'
          else String c (replace_from 0 old new s')
      end
  end.

(** With an empty [old] Python puts [new] around every character. *)
Fixpoint replace_empty (new s : string) : string :=
  match s with
  | EmptyString => new
  | String c s' => new ++ String c (replace_empty new s')
  end.

Definition replace (old new s : string) : string :=
  match old with
  | EmptyString => replace_empty new s
  | String _ _ => replace_from 0 old new s
  end.

(** Truth value of a string in a condition: [if s:]. *)
Definition truthy (s : string) : bool :=
  match s with
  | EmptyString => false
  | String _ _ => true
  end.

(** [str(n)] for a natural number, and the zero-padded [%0wd]. *)
Definition str_nat (n : nat) : string :=
  NilZero.string_of_uint (Nat.to_uint n).

Fixpoint zeros (n : nat) : string :=
  match n with
  | O => EmptyString
  | S k => String "0"%char (zeros k)
  end.

Definition zfill (width n : nat) : string :=
  let d := str_nat n in zeros (width - String.length d) ++ d.

End PyStr.

Import PyStr.

(** ** Data model *)

(** [datetime.now()] as the fields of the value it returns. *)
Record DateTime := {
  year : nat; month : nat; day : nat;
  hour : nat; minute : nat; second : nat; microsecond : nat
}.

(** [d.isoformat()] *)
Definition isoformat (d : DateTime) : string :=
  zfill 4 (year d) ++ "-" ++ zfill 2 (month d) ++ "-" ++ zfill 2 (day d)
  ++ "T" ++ zfill 2 (hour d) ++ ":" ++ zfill 2 (minute d)
  ++ ":" ++ zfill 2 (second d)
  ++ (if microsecond d =? 0 then "" else "." ++ zfill 6 (microsecond d)).

(** [d.strftime("%I:%M %p")] *)
Definition strftime_I_M_p (d : DateTime) : string :=
  zfill 2 (if hour d mod 12 =? 0 then 12 else hour d mod 12)
  ++ ":" ++ zfill 2 (minute d) ++ " "
  ++ (if hour d <? 12 then "AM" else "PM").

(** The dataclass [Config]. *)
Record Config := {
  name : string;
  speech_rate : Z;
  voice_id : Z;
  hotword : string;
  wake_responses : list string;
  weather_api_key : string;
  max_history : Z
}.

(** The dictionaries appended to [self.history]. *)
Record HistoryEntry := {
  timestamp : string;
  speaker : string;
  text : string;
  emotion : option string
}.

(** The two properties of the pyttsx3 engine that [speak] sets. *)
Record Engine := {
  rate : Z;
  volume : Q
}.

(** Python exceptions, by the classes [listen] tells apart; [str(e)] is the
    message. *)
Inductive exn :=
| WaitTimeoutError (msg : string)
| UnknownValueError (msg : string)
| OtherException (msg : string).

Definition str_exn (e : exn) : string :=
  match e with
  | WaitTimeoutError msg | UnknownValueError msg | OtherException msg => msg
  end.

(** ** The world outside the program *)

(** The calls [speak] makes on the engine, in the order it makes them. *)
Inductive engine_call :=
| SetRate | SetVolume | Say | RunAndWait | ResetRate | ResetVolume.

Definition engine_call_eqb (a b : engine_call) : bool :=
  match a, b with
  | SetRate, SetRate | SetVolume, SetVolume | Say, Say
  | RunAndWait, RunAndWait | ResetRate, ResetRate
  | ResetVolume, ResetVolume => true
  | _, _ => false
  end.

(** What the speech sink does during one call of [speak]: it works, or one
    of the engine calls raises. *)
Inductive tts_outcome :=
| TtsOk
| TtsFault (at_call : engine_call) (msg : string).

(** One [recognizer.listen] followed by [recognize_google]. *)
Inductive capture_outcome :=
| Heard (transcript : string)
| CaptureRaises (e : exn).

(** The body of a weather response read with [response.json()] and the two
    look-ups in it; [str(temp)] stands for the number. *)
Record WeatherData := {
  temp_c : string;
  condition_text : string
}.

Inductive http_outcome :=
| HttpRaises (e : exn)
| HttpResponse (status : Z) (body : exn + WeatherData).

Record World := {
  tts : nat -> tts_outcome;          (* the sink, during the n-th [speak] *)
  microphone : nat -> option exn;    (* opening [sr.Microphone()] *)
  capture : nat -> capture_outcome;  (* the n-th capture and transcription *)
  choice : nat -> nat;               (* the n-th draw of [np.random.choice] *)
  launch : nat -> option exn;        (* [webbrowser.open] and [os.system] *)
  http : nat -> http_outcome;        (* the n-th GET *)
  clock : nat -> DateTime            (* the n-th [datetime.now()] *)
}.

(** How many times each oracle has been consulted. *)
Record Calls := {
  n_speak : nat; n_listen : nat; n_capture : nat; n_choice : nat;
  n_launch : nat; n_http : nat; n_clock : nat
}.

Definition no_calls : Calls := Build_Calls 0 0 0 0 0 0 0.

(** What the program did to the world, oldest first. *)
Inductive Event :=
| EvSay (utterance : string) (at_rate : Z) (at_volume : Q)
| EvRunAndWait
| EvCapture (timeout : Z)
| EvBrowserOpen (url : string)
| EvOsSystem (cmd : string)
| EvHttpGet (url : string)
| EvSleep (seconds : Q)
| EvLog (level msg : string).

(** ** The assistant's state *)

Record State := {
  config : Config;
  engine : Engine;
  history : list HistoryEntry;
  running : bool;
  world : World;
  calls : Calls;
  trace : list Event
}.

Definition set_engine (f : Engine -> Engine) (st : State) : State :=
  Build_State (config st) (f (engine st)) (history st) (running st)
              (world st) (calls st) (trace st).

Definition set_history (f : list HistoryEntry -> list HistoryEntry)
  (st : State) : State :=
  Build_State (config st) (engine st) (f (history st)) (running st)
              (world st) (calls st) (trace st).

Definition set_running (b : bool) (st : State) : State :=
  Build_State (config st) (engine st) (history st) b
              (world st) (calls st) (trace st).

Definition set_calls (f : Calls -> Calls) (st : State) : State :=
  Build_State (config st) (engine st) (history st) (running st)
              (world st) (f (calls st)) (trace st).

Definition emit_event (e : Event) (st : State) : State :=
  Build_State (config st) (engine st) (history st) (running st)
              (world st) (calls st) (trace st ++ [e]).

Definition bump_speak (c : Calls) : Calls :=
  Build_Calls (S (n_speak c)) (n_listen c) (n_capture c) (n_choice c)
              (n_launch c) (n_http c) (n_clock c).
Definition bump_listen (c : Calls) : Calls :=
  Build_Calls (n_speak c) (S (n_listen c)) (n_capture c) (n_choice c)
              (n_launch c) (n_http c) (n_clock c).
Definition bump_capture (c : Calls) : Calls :=
  Build_Calls (n_speak c) (n_listen c) (S (n_capture c)) (n_choice c)
              (n_launch c) (n_http c) (n_clock c).
Definition bump_choice (c : Calls) : Calls :=
  Build_Calls (n_speak c) (n_listen c) (n_capture c) (S (n_choice c))
              (n_launch c) (n_http c) (n_clock c).
Definition bump_launch (c : Calls) : Calls :=
  Build_Calls (n_speak c) (n_listen c) (n_capture c) (n_choice c)
              (S (n_launch c)) (n_http c) (n_clock c).
Definition bump_http (c : Calls) : Calls :=
  Build_Calls (n_speak c) (n_listen c) (n_capture c) (n_choice c)
              (n_launch c) (S (n_http c)) (n_clock c).
Definition bump_clock (c : Calls) : Calls :=
  Build_Calls (n_speak c) (n_listen c) (n_capture c) (n_choice c)
              (n_launch c) (n_http c) (S (n_clock c)).

(** ** A state-and-exception monad for the methods *)

Inductive Result (A : Type) :=
| Ret (a : A)
| Raise (e : exn).
Arguments Ret {A} a.
Arguments Raise {A} e.

Definition M (A : Type) : Type := State -> Result A * State.

Definition ret {A} (a : A) : M A := fun st => (Ret a, st).

Definition bind {A B} (m : M A) (k : A -> M B) : M B :=
  fun st =>
    match m st with
    | (Ret a, st') => k a st'
    | (Raise e, st') => (Raise e, st')
    end.

Definition raise {A} (e : exn) : M A := fun st => (Raise e, st).

(** [try: body except ... as e: handler e] *)
Definition try_except {A} (body : M A) (handler : exn -> M A) : M A :=
  fun st =>
    match body st with
    | (Ret a, st') => (Ret a, st')
    | (Raise e, st') => handler e st'
    end.

Definition gets {A} (f : State -> A) : M A := fun st => (Ret (f st), st).
Definition modify (f : State -> State) : M unit := fun st => (Ret tt, f st).

Declare Scope py_scope.
Delimit Scope py_scope with py.
Notation "x <- m ;; k" := (bind m (fun x => k))
  (at level 100, m at next level, right associativity) : py_scope.
Notation "m ;; k" := (bind m (fun _ => k))
  (at level 100, right associativity) : py_scope.
Open Scope py_scope.

(** ** Calls that reach the world *)

Definition emit (e : Event) : M unit := modify (emit_event e).

Definition logger_error (msg : string) : M unit := emit (EvLog "ERROR" msg).
Definition logger_info (msg : string) : M unit := emit (EvLog "INFO" msg).

Definition datetime_now : M DateTime :=
  fun st => (Ret (clock (world st) (n_clock (calls st))),
             set_calls bump_clock st).

(** The behaviour of the sink during the call of [speak] that starts now. *)
Definition sink_outcome : M tts_outcome :=
  fun st => (Ret (tts (world st) (n_speak (calls st))),
             set_calls bump_speak st).

(** One call on the engine: it raises when the sink faults at this call. *)
Definition engine_do (o : tts_outcome) (c : engine_call) (effect : M unit)
  : M unit :=
  match o with
  | TtsOk => effect
  | TtsFault c' msg =>
      if engine_call_eqb c c' then raise (OtherException msg) else effect
  end.

Definition setProperty_rate (v : Z) : M unit :=
  modify (set_engine (fun e => Build_Engine v (volume e))).
Definition setProperty_volume (v : Q) : M unit :=
  modify (set_engine (fun e => Build_Engine (rate e) v)).

(** [engine.say(text)]: the utterance is handed over with the properties the
    engine has at that moment. *)
Definition engine_say (utterance : string) : M unit :=
  fun st =>
    emit (EvSay utterance (rate (engine st)) (volume (engine st))) st.
Definition engine_runAndWait : M unit := emit EvRunAndWait.

(** [with sr.Microphone() as source: body] *)
Definition with_microphone {A} (body : M A) : M A :=
  fun st =>
    let st' := set_calls bump_listen st in
    match microphone (world st) (n_listen (calls st)) with
    | Some e => (Raise e, st')
    | None => body st'
    end.

(** [recognizer.adjust_for_ambient_noise(source)] changes the recogniser's
    energy threshold only, which nothing here reads. *)
Definition adjust_for_ambient_noise : M unit := ret tt.

(** [recognizer.recognize_google(recognizer.listen(source, timeout=t))] *)
Definition recognize (t : Z) : M string :=
  fun st =>
    let st' := emit_event (EvCapture t) (set_calls bump_capture st) in
    match capture (world st) (n_capture (calls st)) with
    | Heard transcript => (Ret transcript, st')
    | CaptureRaises e => (Raise e, st')
    end.

(** [np.random.choice(a)]: a [ValueError] on an empty sequence. *)
Definition np_random_choice (a : list string) : M string :=
  fun st =>
    match a with
    | [] => (Raise (OtherException
                      "'a' cannot be empty unless no samples are taken"), st)
    | _ :: _ =>
        (Ret (nth (choice (world st) (n_choice (calls st)) mod List.length a) a ""),
         set_calls bump_choice st)
    end.

Definition launched (e : Event) : M unit :=
  fun st =>
    let st' := emit_event e (set_calls bump_launch st) in
    match launch (world st) (n_launch (calls st)) with
    | Some ex => (Raise ex, st')
    | None => (Ret tt, st')
    end.

Definition webbrowser_open (url : string) : M unit :=
  launched (EvBrowserOpen url).
Definition os_system (cmd : string) : M unit :=
  launched (EvOsSystem cmd).

(** [session.get(url)] *)
Definition session_get (url : string) : M (Z * (exn + WeatherData)) :=
  fun st =>
    let st' := emit_event (EvHttpGet url) (set_calls bump_http st) in
    match http (world st) (n_http (calls st)) with
    | HttpRaises e => (Raise e, st')
    | HttpResponse status body => (Ret (status, body), st')
    end.

(** [await response.json()] and the look-ups of the two fields. *)
Definition response_json (body : exn + WeatherData) : M WeatherData :=
  match body with
  | inl e => raise e
  | inr d => ret d
  end.

Definition asyncio_sleep (seconds : Q) : M unit := emit (EvSleep seconds).

(** ** Python slices and comparisons *)

(** [l[start:]] *)
Definition slice_from {A} (start : Z) (l : list A) : list A :=
  let n := Z.of_nat (List.length l) in
  let i := if (start <? 0)%Z then Z.max 0 (n + start) else Z.min start n in
  skipn (Z.to_nat i) l.

(** [emotion == s] for an [Optional[str]]. *)
Definition emotion_is (emotion : option string) (s : string) : bool :=
  match emotion with
  | Some e => String.eqb e s
  | None => false
  end.

(** ** The methods of [EchoAI] *)

Definition append_history (e : HistoryEntry) : M unit :=
  modify (set_history (fun h => (h ++ [e])%list)).

(** [speak], lines 94-127. *)
Definition speak (utterance : string) (emo : option string) : M unit :=
  o <- sink_outcome ;;
  try_except
    (original_rate <- gets (fun st => speech_rate (config st)) ;;
     vol <- (if emotion_is emo "happy" then
               engine_do o SetRate (setProperty_rate (original_rate + 20)) ;;
               ret 1.0%Q
             else if emotion_is emo "sad" then
               engine_do o SetRate (setProperty_rate (original_rate - 20)) ;;
               ret 0.8%Q
             else ret 0.9%Q) ;;
     engine_do o SetVolume (setProperty_volume vol) ;;
     engine_do o Say (engine_say utterance) ;;
     engine_do o RunAndWait engine_runAndWait ;;
     (* Reset to default *)
     engine_do o ResetRate (setProperty_rate original_rate) ;;
     engine_do o ResetVolume (setProperty_volume 0.9%Q) ;;
     (* Update history *)
     now <- datetime_now ;;
     append_history (Build_HistoryEntry (isoformat now) "assistant"
                                        utterance emo) ;;
     h <- gets history ;;
     m <- gets (fun st => max_history (config st)) ;;
     if (Z.of_nat (List.length h) >? m)%Z
     then modify (set_history (fun _ => slice_from (- m) h))
     else ret tt)
    (fun e => logger_error ("Speak error: " ++ str_exn e)).

(** [listen], lines 129-156. *)
Definition listen (timeout : Z) : M (option string) :=
  with_microphone
    (try_except
       (logger_info "Listening for wake word..." ;;
        adjust_for_ambient_noise ;;
        heard <- recognize timeout ;;
        let said := lower heard in
        hot <- gets (fun st => hotword (config st)) ;;
        if str_in hot said then
          responses <- gets (fun st => wake_responses (config st)) ;;
          ack <- np_random_choice responses ;;
          speak ack None ;;
          heard2 <- recognize 10 ;;
          let command := lower heard2 in
          now <- datetime_now ;;
          append_history (Build_HistoryEntry (isoformat now) "user"
                                             command None) ;;
          ret (Some command)
        else ret None)
       (fun e =>
          match e with
          | WaitTimeoutError _ | UnknownValueError _ => ret None
          | OtherException _ =>
              logger_error ("Listen error: " ++ str_exn e) ;; ret None
          end)).

(** [handle_search], lines 182-189. *)
Definition handle_search (command : string) : M unit :=
  let query := strip (replace "search" "" (replace "search for" "" command)) in
  if truthy query then
    webbrowser_open ("https://www.google.com/search?q=" ++ query) ;;
    speak ("Searching for " ++ query) None
  else
    speak "What would you like me to search for?" None.

(** [handle_time], lines 191-194. *)
Definition handle_time : M unit :=
  now <- datetime_now ;;
  speak ("The current time is " ++ strftime_I_M_p now) None.

(** [handle_weather], lines 196-219.  Creating the [aiohttp.ClientSession]
    sends nothing. *)
Definition handle_weather (command : string) : M unit :=
  try_except
    (let stripped :=
       strip (replace "weather" "" (replace "weather in" "" command)) in
     let location := if truthy stripped then stripped else "New York" in
     key <- gets (fun st => weather_api_key (config st)) ;;
     if truthy key then
       response <- session_get
         ("https://api.weatherapi.com/v1/current.json?key=" ++ key
          ++ "&q=" ++ location) ;;
       if (fst response =? 200)%Z then
         data <- response_json (snd response) ;;
         speak ("The weather in " ++ location ++ " is " ++ condition_text data
                ++ " with a temperature of " ++ temp_c data
                ++ " degrees Celsius.") None
       else
         speak ("Sorry, I couldn't get the weather for " ++ location ++ ".")
               None
     else
       speak "Weather API key not configured." None)
    (fun e =>
       logger_error ("Weather error: " ++ str_exn e) ;;
       speak "I couldn't retrieve the weather information." None).

(** [handle_open], lines 221-235. *)
Definition handle_open (command : string) : M unit :=
  try_except
    (if str_in "browser" command then
       webbrowser_open "https://www.google.com" ;;
       speak "Opening web browser" None
     else if str_in "notepad" command then
       os_system "notepad.exe" ;;
       speak "Opening Notepad" None
     else
       speak "I can only open browser or notepad at the moment." None)
    (fun e =>
       logger_error ("Open app error: " ++ str_exn e) ;;
       speak "I couldn't open that application." None).

(** [shutdown], lines 237-240. *)
Definition shutdown : M unit :=
  speak "Goodbye!" None ;;
  modify (set_running false).

(** [process_command], lines 158-180. *)
Definition process_command (command0 : string) : M unit :=
  try_except
    (let command := strip (lower command0) in
     if negb (truthy command) then ret tt
     else if str_in "search" command then handle_search command
     else if str_in "time" command then handle_time
     else if str_in "weather" command then handle_weather command
     else if str_in "open" command then handle_open command
     else if existsb (fun word => str_in word command)
                     ["exit"; "quit"; "goodbye"]
          then shutdown
     else speak "I'm not sure how to handle that command." None)
    (fun e =>
       logger_error ("Command processing error: " ++ str_exn e) ;;
       speak "Sorry, I encountered an error processing that command." None).

(** The body of the [while] loop of [run], lines 247-254. *)
Definition run_iteration : M unit :=
  try_except
    (command <- listen 5 ;;
     match command with
     | Some c => if truthy c then process_command c else ret tt
     | None => ret tt
     end ;;
     asyncio_sleep 0.1%Q)
    (fun e =>
       logger_error ("Main loop error: " ++ str_exn e) ;;
       asyncio_sleep 1%Q).

(** [while self.running: ...]; [None] when the fuel does not reach the end
    of the loop. *)
Fixpoint run_loop (fuel : nat) (st : State) : option (Result unit * State) :=
  match fuel with
  | O => None
  | S fuel' =>
      if running st then
        match run_iteration st with
        | (Ret _, st') => run_loop fuel' st'
        | (Raise e, st') => Some (Raise e, st')
        end
      else Some (Ret tt, st)
  end.

(** [run], lines 242-254. *)
Definition run (fuel : nat) (st : State) : option (Result unit * State) :=
  match speak ("Hello " ++ name (config st)
               ++ ", how can I assist you today?") None st with
  | (Ret _, st') => run_loop fuel st'
  | (Raise e, st') => Some (Raise e, st')
  end.

(** ** Start-up: [Config] and [EchoAI.__init__] *)

(** The keys of the JSON object in [echo_config.json]: [None] for a key
    that is absent.  [wake_responses] may also hold JSON [null]. *)
Record ConfigData := {
  d_name : option string;
  d_speech_rate : option Z;
  d_voice_id : option Z;
  d_hotword : option string;
  d_wake_responses : option (option (list string));
  d_weather_api_key : option string;
  d_max_history : option Z;
  d_other_keys : list string
}.

Inductive config_file :=
| FileMissing
| FileUnreadable (msg : string)
| FileJson (data : ConfigData).

Definition or_default {A} (o : option A) (d : A) : A :=
  match o with
  | Some a => a
  | None => d
  end.

(** [Config.__post_init__], lines 40-42. *)
Definition __post_init__ (wr : option (list string)) : list string :=
  match wr with
  | None => ["Yes?"; "I'm here!"; "How can I assist?"]
  | Some l => l
  end.

(** [Config] called on the keys of [data]: the field defaults of the
    dataclass, then [__post_init__]; a key that is no field is a
    [TypeError]. *)
Definition Config_new (data : ConfigData) : exn + Config :=
  match d_other_keys data with
  | k :: _ =>
      inl (OtherException
             ("Config.__init__() got an unexpected keyword argument '"
              ++ k ++ "'"))
  | [] =>
      inr (Build_Config
             (or_default (d_name data) "User")
             (or_default (d_speech_rate data) 170%Z)
             (or_default (d_voice_id data) 0%Z)
             (or_default (d_hotword data) "echo")
             (__post_init__ (or_default (d_wake_responses data) None))
             (or_default (d_weather_api_key data) "")
             (or_default (d_max_history data) 100%Z))
  end.

(** [Config()] *)
Definition Config_defaults : Config :=
  Build_Config "User" 170%Z 0%Z "echo"
               ["Yes?"; "I'm here!"; "How can I assist?"] "" 100%Z.

(** [load_config], lines 52-65.  [save_config] writes the defaults to the
    file and logs its own failure; the value returned does not depend on
    it. *)
Definition load_config (f : config_file) : Config :=
  match f with
  | FileJson data =>
      match Config_new data with
      | inr c => c
      | inl _ => Config_defaults
      end
  | FileMissing => Config_defaults
  | FileUnreadable _ => Config_defaults
  end.

(** [init_speech_engine], lines 75-85: the rate is set from the
    configuration, the volume is the engine's own default, 1.0. *)
Definition init_speech_engine (c : Config) : Engine :=
  Build_Engine (speech_rate c) 1.0%Q.

(** [EchoAI.__init__], lines 45-50, in a given world. *)
Definition EchoAI_init (f : config_file) (w : World) : State :=
  let c := load_config f in
  Build_State c (init_speech_engine c) [] true w no_calls [].

(** ** Concrete worlds, for running the methods *)

Definition script {A} (l : list A) (d : A) : nat -> A := fun n => nth n l d.

(** The [n]-th reading of the clock is [n] seconds after noon. *)
Definition ticking (n : nat) : DateTime :=
  Build_DateTime 2024 5 17 12 (n / 60 mod 60) (n mod 60) 0.

Definition timed_out : capture_outcome :=
  CaptureRaises (WaitTimeoutError "listening timed out").

(** A world in which only the microphone and the sink are scripted: the
    sink follows [sink], then works; the recogniser hears [heard], then
    times out; the browser and the shell start; the weather service is
    unreachable. *)
Definition scripted_world (sink : list tts_outcome)
  (heard : list capture_outcome) : World :=
  Build_World (script sink TtsOk) (fun _ => None) (script heard timed_out)
              (fun n => n) (fun _ => None)
              (fun _ => HttpRaises (OtherException "Cannot connect to host"))
              ticking.

(** The sink raises in [engine.say] during the first call of [speak]; the
    microphone hears the wake word and then a command. *)
Definition busy_sink_state : State :=
  EchoAI_init FileMissing
    (scripted_world [TtsFault Say "audio device busy"]
                    [Heard "Echo"; Heard "What time is it"]).

(** Everything works; the microphone hears [heard]. *)
Definition calm_state (heard : list capture_outcome) : State :=
  EchoAI_init FileMissing (scripted_world [] heard).

(** A session of two wake-word interactions, the second one a farewell. *)
Definition farewell_state : State :=
  calm_state [Heard "Echo"; Heard "What time is it";
              Heard "echo"; Heard "Goodbye"].

(** [n] wake-word interactions as the microphone hears them. *)
Fixpoint wake_interactions (n : nat) : list capture_outcome :=
  match n with
  | O => []
  | S k => Heard "Echo" :: Heard "What time is it" :: wake_interactions k
  end.

(** A configuration file whose [wake_responses] is the empty array. *)
Definition silent_wake_file : config_file :=
  FileJson (Build_ConfigData None None None None (Some (Some [])) None None []).

(** A configuration file whose [wake_responses] is [null]. *)
Definition null_wake_file : config_file :=
  FileJson (Build_ConfigData None None None None (Some None) None None []).

(** ** Observations on states and traces *)

(** The sink raises during a call of [speak] with emotion [emo]: the call
    at which it is scripted to fault is one that [speak] makes.  The rate is
    set before the utterance only for the two emotions. *)
Definition sink_faults (o : tts_outcome) (emo : option string) : bool :=
  match o with
  | TtsOk => false
  | TtsFault SetRate _ => emotion_is emo "happy" || emotion_is emo "sad"
  | TtsFault _ _ => true
  end.

(** The fault comes before [runAndWait] has returned. *)
Definition faults_before_completion (o : tts_outcome) (emo : option string)
  : bool :=
  match o with
  | TtsFault ResetRate _ | TtsFault ResetVolume _ => false
  | _ => sink_faults o emo
  end.

Definition is_capture (e : Event) : bool :=
  match e with EvCapture _ => true | _ => false end.
Definition is_http_get (e : Event) : bool :=
  match e with EvHttpGet _ => true | _ => false end.
Definition is_launch (e : Event) : bool :=
  match e with EvBrowserOpen _ | EvOsSystem _ => true | _ => false end.

(** The events [speak] can leave. *)
Definition is_speech (e : Event) : bool :=
  match e with EvSay _ _ _ | EvRunAndWait | EvLog _ _ => true | _ => false end.

(** The entry [speak] builds for its utterance. *)
Definition assistant_entry (u : string) (emo : option string) (st : State)
  : HistoryEntry :=
  Build_HistoryEntry (isoformat (clock (world st) (n_clock (calls st))))
                     "assistant" u emo.

(** The state in which an iteration of the loop of [run] ends. *)
Definition after_iteration (st : State) : State := snd (run_iteration st).

(** [n] calls of [listen] in a row. *)
Fixpoint listen_times (n : nat) (st : State) : State :=
  match n with
  | O => st
  | S k => listen_times k (snd (listen 5 st))
  end.

(** ** The classifier as the specification words it

    The specification describes the chain of conditions of
    [process_command] as an ordered table of keywords and intents, the first
    row that matches giving the intent, and one handler per intent. *)

Inductive Intent := Search | Time | Weather | Open | Exit | Unknown.

Definition intent_table : list (list string * Intent) :=
  [ (["search"], Search);
    (["time"], Time);
    (["weather"], Weather);
    (["open"], Open);
    (["exit"; "quit"; "goodbye"], Exit) ].

Fixpoint first_match (table : list (list string * Intent)) (u : string)
  : Intent :=
  match table with
  | [] => Unknown
  | (keywords, i) :: rest =>
      if existsb (fun k => str_in k u) keywords then i
      else first_match rest u
  end.

Definition classify (u : string) : Intent := first_match intent_table u.

Definition handler (i : Intent) (u : string) : M unit :=
  match i with
  | Search => handle_search u
  | Time => handle_time
  | Weather => handle_weather u
  | Open => handle_open u
  | Exit => shutdown
  | Unknown => speak "I'm not sure how to handle that command." None
  end.

(** ** Saving the configuration *)

(** [config.__dict__]: every field of the dataclass is a key. *)
Definition config_dict (c : Config) : ConfigData :=
  Build_ConfigData (Some (name c)) (Some (speech_rate c)) (Some (voice_id c))
                   (Some (hotword c)) (Some (Some (wake_responses c)))
                   (Some (weather_api_key c)) (Some (max_history c)) [].

(** What opening the file for writing and [json.dump] do: the file holds
    the dictionary, or an exception is raised and the file is left as the
    failed write left it. *)
Inductive save_outcome :=
| Saved
| SaveRaises (e : exn) (left_on_disk : config_file).

(** [save_config], lines 67-73: the file afterwards and what is logged. *)
Definition save_config (c : Config) (o : save_outcome)
  : config_file * list Event :=
  match o with
  | Saved => (FileJson (config_dict c), [])
  | SaveRaises e left_on_disk =>
      (left_on_disk,
       [EvLog "ERROR" ("Config save error: " ++ str_exn e)])
  end.

(** [load_config], lines 52-65, with what it does to the file and to the
    log: the configuration returned, the file afterwards, the lines
    logged. *)
Definition load_config_on_disk (f : config_file) (o : save_outcome)
  : Config * config_file * list Event :=
  match f with
  | FileJson data =>
      match Config_new data with
      | inr c => (c, f, [])
      | inl e =>
          (Config_defaults, f,
           [EvLog "ERROR" ("Config load error: " ++ str_exn e)])
      end
  | FileMissing =>
      let (f', logged) := save_config Config_defaults o in
      (Config_defaults, f', logged)
  | FileUnreadable msg =>
      (Config_defaults, f, [EvLog "ERROR" ("Config load error: " ++ msg)])
  end.

(** ** Frames: what a method leaves as it was *)

(** [m] relates every state to the state it ends in by [R]. *)
Definition frame (R : State -> State -> Prop) {A} (m : M A) : Prop :=
  forall st, R st (snd (m st)).

Definition is_sleep (e : Event) : bool :=
  match e with EvSleep _ => true | _ => false end.

(** The configuration and the world are the same. *)
Definition same_session (st st' : State) : Prop :=
  config st' = config st /\ world st' = world st.

(** The flag of the loop is the same. *)
Definition same_flag (st st' : State) : Prop := running st' = running st.

(** No event of the kind [p] was added to the trace. *)
Definition no_new (p : Event -> bool) (st st' : State) : Prop :=
  filter p (trace st') = filter p (trace st).

(** A world in which the microphone opens and hears nothing, ever. *)
Definition silent (w : World) : Prop :=
  (forall n, microphone w n = None)
  /\ (forall n, exists msg, capture w n = CaptureRaises (WaitTimeoutError msg)).

(** A relation between states that the basic updates of the methods respect,
    as long as the events they add are [allowed]. *)
Record Framing (R : State -> State -> Prop) (allowed : Event -> bool)
  : Prop := {
  fr_refl : forall st, R st st;
  fr_trans : forall a b c, R a b -> R b c -> R a c;
  fr_emit : forall e st, allowed e = true -> R st (emit_event e st);
  fr_calls : forall f st, R st (set_calls f st);
  fr_engine : forall f st, R st (set_engine f st);
  fr_history : forall f st, R st (set_history f st)
}.

(** ** The request of the weather handler *)

(** The location [handle_weather] reads in a command, lines 201-203. *)
Definition weather_location (command : string) : string :=
  let stripped :=
    strip (replace "weather" "" (replace "weather in" "" command)) in
  if truthy stripped then stripped else "New York".

(** The URL of the request, line 206. *)
Definition weather_url (key location : string) : string :=
  "https://api.weatherapi.com/v1/current.json?key=" ++ key
  ++ "&q=" ++ location.

(** A configuration file that only gives a weather API key. *)
Definition keyed_file : config_file :=
  FileJson (Build_ConfigData None None None None None (Some "k3y") None []).

(** The query [handle_search] reads in a command, line 184. *)
Definition search_query (command : string) : string :=
  strip (replace "search" "" (replace "search for" "" command)).

(** ** More concrete worlds *)

(** The weather service answers 200 with 20.5 degrees and "Sunny". *)
Definition sunny_world : World :=
  Build_World (fun _ => TtsOk) (fun _ => None) (fun _ => timed_out)
              (fun n => n) (fun _ => None)
              (fun _ => HttpResponse 200%Z
                          (inr (Build_WeatherData "20.5" "Sunny")))
              ticking.

(** The weather service answers 503. *)
Definition stormy_world : World :=
  Build_World (fun _ => TtsOk) (fun _ => None) (fun _ => timed_out)
              (fun n => n) (fun _ => None)
              (fun _ => HttpResponse 503%Z
                          (inl (OtherException "Service Unavailable")))
              ticking.

(** No browser can be started. *)
Definition no_browser_world : World :=
  Build_World (fun _ => TtsOk) (fun _ => None) (fun _ => timed_out)
              (fun n => n)
              (fun _ => Some (OtherException "could not locate runnable browser"))
              (fun _ => HttpRaises (OtherException "Cannot connect to host"))
              ticking.

(** No microphone can be opened. *)
Definition no_microphone_world : World :=
  Build_World (fun _ => TtsOk)
              (fun _ => Some (OtherException "No Default Input Device Available"))
              (fun _ => timed_out) (fun n => n) (fun _ => None)
              (fun _ => HttpRaises (OtherException "Cannot connect to host"))
              ticking.

(** Configuration files that bound the history to one entry, and to
    none. *)
Definition one_entry_file : config_file :=
  FileJson (Build_ConfigData None None None None None None (Some 1%Z) []).

Definition zero_history_file : config_file :=
  FileJson (Build_ConfigData None None None None None None (Some 0%Z) []).

(** ** Proof automation *)

(** Projections of updated states. *)
Ltac state_simpl :=
  cbn [config engine history running world calls trace
       emit_event set_calls set_history set_engine set_running
       bump_speak bump_listen bump_capture bump_choice bump_launch bump_http
       bump_clock n_speak n_listen n_capture n_choice n_launch n_http n_clock
       fst snd] in *.

(** One call of [speak], case by case: the outcome of the sink and the
    emotion. *)
Ltac run_speak emo st :=
  cbv beta iota delta
    [speak bind try_except sink_outcome gets engine_do ret raise modify
     setProperty_rate setProperty_volume engine_say engine_runAndWait emit
     datetime_now append_history logger_error engine_call_eqb];
  destruct (tts (world st) (n_speak (calls st))) as [|[] ?];
  destruct (emotion_is emo "happy"); destruct (emotion_is emo "sad");
  cbn -[isoformat slice_from Z.gtb Z.of_nat Z.add Z.sub Z.opp].

(** Trimmed or not. *)
Ltac split_trim :=
  repeat match goal with
    | |- context [if (?a >? ?b)%Z then _ else _] => destruct (a >? b)%Z eqn:?
    end.

(** The beginning of [listen]. *)
Ltac run_listen :=
  cbv beta iota delta
    [listen with_microphone try_except bind logger_info emit modify
     adjust_for_ambient_noise ret recognize gets].

(** * Properties *)

Open Scope list_scope.

(** ** The Python primitives on examples *)

Example lower_ex : lower "Echo, SEARCH for Cats" = "echo, search for cats".
Proof. reflexivity. Qed.

Example strip_ex : strip "  what is  the time " = "what is  the time".
Proof. reflexivity. Qed.

Example str_in_ex :
  str_in "search" "please search the weather" = true
  /\ str_in "time" "tim e" = false
  /\ str_in "" "" = true.
Proof. repeat split. Qed.

Example replace_ex :
  replace "search for" "" "search for cats" = " cats"
  /\ replace "aa" "b" "aaaaa" = "bba"
  /\ replace "" "-" "abc" = "-a-b-c-".
Proof. repeat split. Qed.

Example zfill_ex : zfill 2 7 = "07" /\ zfill 2 12 = "12" /\ zfill 4 2026 = "2026".
Proof. repeat split. Qed.

Example datetime_ex :
  isoformat (Build_DateTime 2024 5 17 9 5 3 250) = "2024-05-17T09:05:03.000250"
  /\ isoformat (Build_DateTime 2024 5 17 9 5 3 0) = "2024-05-17T09:05:03"
  /\ strftime_I_M_p (Build_DateTime 2024 5 17 0 7 0 0) = "12:07 AM"
  /\ strftime_I_M_p (Build_DateTime 2024 5 17 15 30 0 0) = "03:30 PM".
Proof. repeat split. Qed.

Example slice_from_ex :
  slice_from (-2) [1; 2; 3] = [2; 3] /\ slice_from (-5) [1; 2; 3] = [1; 2; 3]
  /\ slice_from (-0) [1; 2; 3] = [1; 2; 3] /\ slice_from 1 [1; 2; 3] = [2; 3].
Proof. repeat split. Qed.

(** ** Strings *)

Lemma truthy_strip_lower (c : string) :
  truthy (strip (lower c)) = true -> truthy c = true.
Proof. destruct c; [discriminate | reflexivity]. Qed.

(** [startswith] and [in] mean what they say. *)
Lemma startswith_spec (p s : string) :
  startswith p s = true <-> exists t, s = (p ++ t)%string.
Proof.
  revert s. induction p as [|a p IH]; intros s; cbn.
  - split; [intros _; now exists s | reflexivity].
  - destruct s as [|b s]; cbn.
    + split; [discriminate | intros [t Ht]; discriminate Ht].
    + rewrite andb_true_iff, IH. split.
      * intros [Hab [t ->]]. apply Ascii.eqb_eq in Hab. subst b. now exists t.
      * intros [t Ht]. injection Ht as -> ->.
        split; [apply Ascii.eqb_refl | now exists t].
Qed.

Lemma str_in_spec (needle hay : string) :
  str_in needle hay = true
  <-> exists before after, hay = (before ++ needle ++ after)%string.
Proof.
  induction hay as [|c hay IH].
  - cbn [str_in]. rewrite orb_false_r, startswith_spec. split.
    + intros [t Ht]. now exists ""%string, t.
    + intros [[|b before] [after H]]; [now exists after | discriminate H].
  - cbn [str_in]. rewrite orb_true_iff, startswith_spec, IH. split.
    + intros [[t Ht] | (before & after & H)].
      * now exists ""%string, t.
      * exists (String c before), after. cbn. now rewrite H.
    + intros [[|b before] [after H]].
      * left. now exists after.
      * right. injection H as -> H. now exists before, after.
Qed.

(** ** Python slices *)

Lemma slice_from_keeps_last {A} (m : Z) (l : list A) (a : A) :
  (0 <= m)%Z ->
  exists l', slice_from (- m) (l ++ [a]) = l' ++ [a].
Proof.
  intros Hm. unfold slice_from.
  rewrite length_app, Nat.add_1_r.
  destruct (- m <? 0)%Z eqn:E.
  - assert (Hk : Z.to_nat (Z.max 0 (Z.of_nat (S (List.length l)) + - m))
                 <= List.length l) by lia.
    exists (skipn (Z.to_nat (Z.max 0 (Z.of_nat (S (List.length l)) + - m))) l).
    rewrite skipn_app.
    replace (_ - List.length l) with 0 by lia. reflexivity.
  - apply Z.ltb_ge in E. assert (m = 0)%Z by lia. subst m.
    exists l. reflexivity.
Qed.

Lemma slice_from_length {A} (m : Z) (l : list A) :
  (0 < m)%Z -> (Z.of_nat (List.length (slice_from (- m) l)) <= m)%Z.
Proof.
  intros Hm. unfold slice_from.
  destruct (- m <? 0)%Z eqn:E; [| apply Z.ltb_ge in E; lia].
  rewrite length_skipn. lia.
Qed.

(** ** What one call of [speak] does *)

(** [speak] catches whatever the sink raises. *)
Lemma speak_returns (u : string) (emo : option string) (st : State) :
  fst (speak u emo st) = Ret tt.
Proof. run_speak emo st; split_trim; reflexivity. Qed.

(** [speak] touches the engine, the history, the clock and the trace, and
    in the trace it leaves nothing but speech and log lines. *)
Lemma speak_frame (u : string) (emo : option string) (st : State) :
  let st' := snd (speak u emo st) in
  config st' = config st /\ world st' = world st
  /\ running st' = running st
  /\ n_listen (calls st') = n_listen (calls st)
  /\ n_capture (calls st') = n_capture (calls st)
  /\ n_choice (calls st') = n_choice (calls st)
  /\ n_launch (calls st') = n_launch (calls st)
  /\ n_http (calls st') = n_http (calls st)
  /\ exists evs, trace st' = trace st ++ evs /\ forallb is_speech evs = true.
Proof.
  run_speak emo st; split_trim; cbn;
    repeat (split; [reflexivity |]);
    repeat rewrite <- app_assoc; eexists; (split; [reflexivity | reflexivity]).
Qed.

(** When the sink raises, [speak] appends nothing and logs the fault. *)
Lemma speak_fault (u : string) (emo : option string) (st : State) :
  sink_faults (tts (world st) (n_speak (calls st))) emo = true ->
  let st' := snd (speak u emo st) in
  history st' = history st
  /\ exists c msg evs,
      tts (world st) (n_speak (calls st)) = TtsFault c msg
      /\ trace st' = trace st ++ evs
                     ++ [EvLog "ERROR" ("Speak error: " ++ msg)%string].
Proof.
  unfold sink_faults.
  run_speak emo st; intros Hf; try discriminate Hf; split_trim;
    (split; [reflexivity |]);
    repeat rewrite <- app_assoc; do 2 eexists;
    first [ exists []; split; reflexivity
          | eexists [_]; split; reflexivity
          | eexists [_; _]; split; reflexivity ].
Qed.

(** When the sink works, [speak] resets the engine to the configured rate
    and to volume 0.9, appends its entry and trims the history. *)
Lemma speak_ok (u : string) (emo : option string) (st : State) :
  sink_faults (tts (world st) (n_speak (calls st))) emo = false ->
  let st' := snd (speak u emo st) in
  let h := history st ++ [assistant_entry u emo st] in
  engine st' = Build_Engine (speech_rate (config st)) 0.9%Q
  /\ history st'
     = (if (Z.of_nat (List.length h) >? max_history (config st))%Z
        then slice_from (- max_history (config st)) h else h)
  /\ n_clock (calls st') = S (n_clock (calls st)).
Proof.
  unfold sink_faults, assistant_entry.
  run_speak emo st; intros Hf; try discriminate Hf; split_trim;
    repeat split; reflexivity.
Qed.

Lemma speech_filtered (p : Event -> bool) (evs : list Event) :
  (forall e, is_speech e = true -> p e = false) ->
  forallb is_speech evs = true -> filter p evs = [].
Proof.
  intros Hp. induction evs as [|e evs IH]; cbn; [reflexivity |].
  intros H. apply andb_prop in H. destruct H as [He Hevs].
  rewrite (Hp e He). exact (IH Hevs).
Qed.

(** [speak] leaves the events that are not speech as they were. *)
Lemma speak_filter (p : Event -> bool) u emo st :
  (forall e, is_speech e = true -> p e = false) ->
  filter p (trace (snd (speak u emo st))) = filter p (trace st).
Proof.
  intros Hp.
  destruct (speak_frame u emo st)
    as (_ & _ & _ & _ & _ & _ & _ & _ & evs & Ht & Hs).
  rewrite Ht, filter_app, (speech_filtered p evs Hp Hs). apply app_nil_r.
Qed.

Lemma speech_not_http e : is_speech e = true -> is_http_get e = false.
Proof. destruct e; cbn; congruence. Qed.
Lemma speech_not_capture e : is_speech e = true -> is_capture e = false.
Proof. destruct e; cbn; congruence. Qed.
Lemma speech_not_launch e : is_speech e = true -> is_launch e = false.
Proof. destruct e; cbn; congruence. Qed.

Lemma speak_pair u emo st : speak u emo st = (Ret tt, snd (speak u emo st)).
Proof.
  pose proof (speak_returns u emo st) as H.
  destruct (speak u emo st) as [r s]. cbn in *. now subst r.
Qed.

(** ** Speak: a fault of the sink *)

(** C4: when the speech sink raises before the utterance has completed
    (while the rate or the volume is set, in [say] or in [runAndWait]),
    [speak] catches the exception, returns normally and leaves the
    history as it was; the last thing it does is to log the fault. *)
Theorem C4_speak_fault_keeps_history
  (u : string) (emo : option string) (st : State) :
  faults_before_completion (tts (world st) (n_speak (calls st))) emo = true ->
  exists st' c msg evs,
    tts (world st) (n_speak (calls st)) = TtsFault c msg
    /\ speak u emo st = (Ret tt, st')
    /\ history st' = history st
    /\ trace st' = trace st ++ evs
                   ++ [EvLog "ERROR" ("Speak error: " ++ msg)%string].
Proof.
  intros Hf.
  assert (Hs : sink_faults (tts (world st) (n_speak (calls st))) emo = true).
  { unfold faults_before_completion in Hf.
    destruct (tts (world st) (n_speak (calls st))) as [|[] ?];
      solve [exact Hf | discriminate Hf]. }
  destruct (speak_fault u emo st Hs) as (Hh & c & msg & evs & Ho & Ht).
  exists (snd (speak u emo st)), c, msg, evs.
  split; [exact Ho |]. split; [apply speak_pair |].
  split; [exact Hh | exact Ht].
Qed.

Lemma C4_speak_fault_witness :
  faults_before_completion
    (tts (world busy_sink_state) (n_speak (calls busy_sink_state)))
    (Some "happy") = true
  /\ exists st' c msg evs,
      tts (world busy_sink_state) (n_speak (calls busy_sink_state))
      = TtsFault c msg
      /\ speak "Hello" (Some "happy") busy_sink_state = (Ret tt, st')
      /\ history st' = history busy_sink_state
      /\ trace st' = trace busy_sink_state ++ evs
                     ++ [EvLog "ERROR" ("Speak error: " ++ msg)%string].
Proof.
  split; [reflexivity |].
  apply (C4_speak_fault_keeps_history "Hello" (Some "happy") busy_sink_state).
  reflexivity.
Defined.

(** ** Listen: the wake-word gate *)

(** C6: when the microphone opens and the first transcription succeeds but
    the transcript, lower-cased as [listen] reads it, does not contain the
    configured wake word, [listen] returns no command and the history is
    unchanged. *)
Theorem C6_listen_without_wake_word
  (st : State) (timeout : Z) (heard : string) :
  microphone (world st) (n_listen (calls st)) = None ->
  capture (world st) (n_capture (calls st)) = Heard heard ->
  str_in (hotword (config st)) (lower heard) = false ->
  exists st',
    listen timeout st = (Ret None, st')
    /\ history st' = history st
    /\ n_speak (calls st') = n_speak (calls st).
Proof.
  intros Hmic Hcap Hwake. run_listen. rewrite Hmic. cbn -[str_in lower].
  rewrite Hcap. cbn -[str_in lower]. rewrite Hwake. eexists. split; [reflexivity |].
  split; reflexivity.
Qed.

Lemma C6_no_wake_word_witness :
  let st := calm_state [Heard "What time is it"] in
  microphone (world st) (n_listen (calls st)) = None
  /\ capture (world st) (n_capture (calls st)) = Heard "What time is it"
  /\ str_in (hotword (config st)) (lower "What time is it") = false
  /\ exists st',
      listen 5 st = (Ret None, st')
      /\ history st' = history st
      /\ n_speak (calls st') = n_speak (calls st).
Proof.
  repeat (split; [reflexivity |]).
  apply (C6_listen_without_wake_word
           (calm_state [Heard "What time is it"]) 5 "What time is it");
    reflexivity.
Defined.

(** ** Handlers *)

(** C7: with an empty weather API key, [handle_weather] is the one call
    [speak("Weather API key not configured.")]: it sends no GET. *)
Theorem C7_weather_without_key (command : string) (st : State) :
  weather_api_key (config st) = "" ->
  handle_weather command st = speak "Weather API key not configured." None st
  /\ filter is_http_get (trace (snd (handle_weather command st)))
     = filter is_http_get (trace st)
  /\ n_http (calls (snd (handle_weather command st))) = n_http (calls st).
Proof.
  intros Hkey.
  assert (E : handle_weather command st
              = speak "Weather API key not configured." None st).
  { cbv beta iota zeta delta [handle_weather try_except bind gets].
    rewrite Hkey. cbn [truthy].
    rewrite (speak_pair "Weather API key not configured." None st).
    reflexivity. }
  rewrite E. split; [reflexivity |]. split.
  - apply speak_filter, speech_not_http.
  - apply (speak_frame "Weather API key not configured." None st).
Qed.

Lemma C7_no_key_witness :
  let st := calm_state [] in
  weather_api_key (config st) = ""
  /\ handle_weather "weather in boston" st
     = speak "Weather API key not configured." None st
  /\ filter is_http_get (trace (snd (handle_weather "weather in boston" st)))
     = filter is_http_get (trace st)
  /\ n_http (calls (snd (handle_weather "weather in boston" st)))
     = n_http (calls st).
Proof.
  split; [reflexivity |].
  apply (C7_weather_without_key "weather in boston" (calm_state [])).
  reflexivity.
Defined.

(** Without an emotion and with a working sink, [speak] says its text at the
    engine's current rate and at volume 0.9. *)
Lemma speak_plain_trace (u : string) (st : State) :
  tts (world st) (n_speak (calls st)) = TtsOk ->
  trace (snd (speak u None st))
  = trace st ++ [EvSay u (rate (engine st)) 0.9%Q; EvRunAndWait].
Proof.
  intros Hok.
  cbv beta iota delta
    [speak bind try_except sink_outcome gets engine_do ret raise modify
     setProperty_rate setProperty_volume engine_say engine_runAndWait emit
     datetime_now append_history logger_error engine_call_eqb emotion_is].
  rewrite Hok. cbn -[isoformat slice_from Z.gtb Z.of_nat Z.opp].
  split_trim; cbn; now rewrite <- app_assoc.
Qed.

(** C8: on "search for cats" [handle_search] extracts the query "cats",
    opens the web search for it and then speaks "Searching for cats"; on
    "search" alone it opens nothing and speaks the question what to search
    for.  When the browser call returns and the sink works, these are the
    events the handler leaves. *)
Theorem C8_handle_search (st : State) :
  let url := "https://www.google.com/search?q=cats" in
  let question := "What would you like me to search for?" in
  strip (replace "search" "" (replace "search for" "" "search for cats"))
  = "cats"
  /\ handle_search "search for cats" st
     = (webbrowser_open url ;; speak "Searching for cats" None) st
  /\ (launch (world st) (n_launch (calls st)) = None ->
      tts (world st) (n_speak (calls st)) = TtsOk ->
      trace (snd (handle_search "search for cats" st))
      = trace st ++ [EvBrowserOpen url;
                     EvSay "Searching for cats" (rate (engine st)) 0.9%Q;
                     EvRunAndWait])
  /\ handle_search "search" st = speak question None st
  /\ filter is_launch (trace (snd (handle_search "search" st)))
     = filter is_launch (trace st)
  /\ (tts (world st) (n_speak (calls st)) = TtsOk ->
      trace (snd (handle_search "search" st))
      = trace st ++ [EvSay question (rate (engine st)) 0.9%Q; EvRunAndWait]).
Proof.
  cbv zeta.
  assert (Hcats : handle_search "search for cats" st
                  = (webbrowser_open "https://www.google.com/search?q=cats" ;;
                     speak "Searching for cats" None) st) by reflexivity.
  assert (Halone : handle_search "search" st
                   = speak "What would you like me to search for?" None st)
    by reflexivity.
  split; [reflexivity |]. split; [exact Hcats |]. split.
  { intros Hlaunch Hsink. rewrite Hcats.
    cbv beta iota delta [bind webbrowser_open launched].
    rewrite Hlaunch. cbv beta iota zeta.
    rewrite speak_plain_trace by exact Hsink.
    cbn. now rewrite <- app_assoc. }
  split; [exact Halone |]. rewrite Halone. split.
  - apply speak_filter, speech_not_launch.
  - intros Hsink. now apply speak_plain_trace.
Qed.

Lemma C8_calm_search_witness :
  let st := calm_state [] in
  trace (snd (handle_search "search for cats" st))
  = [EvBrowserOpen "https://www.google.com/search?q=cats";
     EvSay "Searching for cats" 170%Z 0.9%Q; EvRunAndWait]
  /\ trace (snd (handle_search "search" st))
     = [EvSay "What would you like me to search for?" 170%Z 0.9%Q;
        EvRunAndWait].
Proof.
  destruct (C8_handle_search (calm_state []))
    as (_ & _ & Hcats & _ & _ & Halone).
  split.
  - exact (Hcats eq_refl eq_refl).
  - exact (Halone eq_refl).
Defined.

(** ** Classification *)

(** The table read row by row. *)
Lemma classify_chain (u : string) :
  classify u
  = (if str_in "search" u then Search
     else if str_in "time" u then Time
     else if str_in "weather" u then Weather
     else if str_in "open" u then Open
     else if str_in "exit" u || str_in "quit" u || str_in "goodbye" u
          then Exit
     else Unknown).
Proof.
  unfold classify, intent_table. cbn [first_match existsb].
  rewrite !orb_false_r, orb_assoc. reflexivity.
Qed.

(** [process_command] normalises the command and, unless nothing is left,
    runs the handler of its intent inside the [try]. *)
Lemma process_command_dispatch (c : string) (st : State) :
  truthy (strip (lower c)) = true ->
  process_command c st
  = match handler (classify (strip (lower c))) (strip (lower c)) st with
    | (Ret a, st') => (Ret a, st')
    | (Raise e, st') =>
        (logger_error ("Command processing error: " ++ str_exn e)%string ;;
         speak "Sorry, I encountered an error processing that command." None)
          st'
    end.
Proof.
  intros Ht. rewrite classify_chain.
  unfold process_command, try_except. cbv zeta.
  rewrite Ht. cbn [negb existsb]. rewrite orb_false_r, orb_assoc.
  destruct (str_in "search" (strip (lower c))); [reflexivity |].
  destruct (str_in "time" (strip (lower c))); [reflexivity |].
  destruct (str_in "weather" (strip (lower c))); [reflexivity |].
  destruct (str_in "open" (strip (lower c))); [reflexivity |].
  destruct (str_in "exit" (strip (lower c)) || str_in "quit" (strip (lower c))
            || str_in "goodbye" (strip (lower c)));
    reflexivity.
Qed.

(** C3: on a non-empty, lower-cased, trimmed utterance [process_command]
    runs the handler of exactly one intent, the one of the first row of
    the table Search, Time, Weather, Open, Exit (any of "exit", "quit",
    "goodbye") that matches, Unknown when none does; an utterance that
    contains "search" is a Search whatever else it contains. *)
Theorem C3_classification (u : string) (st : State) :
  u <> "" -> lower u = u -> strip u = u ->
  process_command u st
  = match handler (classify u) u st with
    | (Ret a, st') => (Ret a, st')
    | (Raise e, st') =>
        (logger_error ("Command processing error: " ++ str_exn e)%string ;;
         speak "Sorry, I encountered an error processing that command." None)
          st'
    end
  /\ classify u
     = (if str_in "search" u then Search
        else if str_in "time" u then Time
        else if str_in "weather" u then Weather
        else if str_in "open" u then Open
        else if str_in "exit" u || str_in "quit" u || str_in "goodbye" u
             then Exit
        else Unknown)
  /\ (str_in "search" u = true -> classify u = Search).
Proof.
  intros Hne Hlow Hstrip.
  assert (Ht : truthy (strip (lower u)) = true).
  { rewrite Hlow, Hstrip. destruct u; [contradiction | reflexivity]. }
  pose proof (process_command_dispatch u st Ht) as Hrun.
  rewrite Hlow, Hstrip in Hrun.
  split; [exact Hrun |]. split; [apply classify_chain |].
  intros Hs. rewrite classify_chain, Hs. reflexivity.
Qed.

Lemma C3_search_weather_witness :
  let u := "search the weather at tea time" in
  let st := calm_state [] in
  classify u = Search
  /\ process_command u st
     = match handle_search u st with
       | (Ret a, st') => (Ret a, st')
       | (Raise e, st') =>
           (logger_error ("Command processing error: " ++ str_exn e)%string ;;
            speak "Sorry, I encountered an error processing that command."
                  None) st'
       end.
Proof.
  destruct (C3_classification "search the weather at tea time" (calm_state []))
    as (Hrun & _ & Hsearch); [discriminate | reflexivity | reflexivity |].
  split.
  - exact (Hsearch eq_refl).
  - rewrite Hrun, (Hsearch eq_refl). reflexivity.
Defined.

(** ** The dispatch loop *)

(** An iteration of the loop never raises: its handler only logs and
    sleeps. *)
Lemma run_iteration_returns (st : State) : fst (run_iteration st) = Ret tt.
Proof.
  unfold run_iteration, try_except.
  match goal with |- context [match ?b st with _ => _ end] =>
    destruct (b st) as [[[]|e] s] end; reflexivity.
Qed.

Lemma run_loop_step (fuel : nat) (st : State) :
  run_loop (S fuel) st
  = if running st then run_loop fuel (after_iteration st)
    else Some (Ret tt, st).
Proof.
  cbn [run_loop]. unfold after_iteration.
  pose proof (run_iteration_returns st) as H.
  destruct (run_iteration st) as [[[]|e] s]; cbn in *; [reflexivity |].
  discriminate H.
Qed.

(** While the flag stays up the loop goes on. *)
Lemma run_loop_iter (n fuel : nat) : forall st,
  (forall i, i < n -> running (Nat.iter i after_iteration st) = true) ->
  run_loop (n + fuel) st = run_loop fuel (Nat.iter n after_iteration st).
Proof.
  induction n as [|n IH]; intros st Hrun; [reflexivity |].
  change (S n + fuel) with (S (n + fuel)).
  assert (H0 : running st = true) by (apply (Hrun 0); lia).
  rewrite run_loop_step, H0, IH.
  - now rewrite Nat.iter_succ_r.
  - intros i Hi. rewrite <- Nat.iter_succ_r. apply Hrun. lia.
Qed.

(** [shutdown] speaks and lowers the flag. *)
Lemma shutdown_spec (st : State) :
  shutdown st = (Ret tt, set_running false (snd (speak "Goodbye!" None st))).
Proof.
  unfold shutdown, bind, modify.
  rewrite (speak_pair "Goodbye!" None st). reflexivity.
Qed.

(** C9: in every execution of the loop, if an iteration hears a command
    whose intent is Exit, [process_command] speaks "Goodbye!" and sets
    [running] to false, and the loop ends with the state of that very
    iteration however much fuel is left: it captures nothing and opens the
    microphone no more after the [listen] that heard the command. *)
Theorem C9_exit_stops_the_loop
  (n fuel : nat) (st s1 : State) (c : string) :
  (forall i, i <= n -> running (Nat.iter i after_iteration st) = true) ->
  listen 5 (Nat.iter n after_iteration st) = (Ret (Some c), s1) ->
  truthy (strip (lower c)) = true ->
  classify (strip (lower c)) = Exit ->
  let s2 := snd (speak "Goodbye!" None s1) in
  let final := emit_event (EvSleep 0.1%Q) (set_running false s2) in
  process_command c s1 = (Ret tt, set_running false s2)
  /\ running final = false
  /\ run_loop (n + (2 + fuel)) st = Some (Ret tt, final)
  /\ filter is_capture (trace final) = filter is_capture (trace s1)
  /\ n_listen (calls final) = n_listen (calls s1).
Proof.
  intros Hrun Hlisten Ht Hexit s2 final.
  assert (Hproc : process_command c s1 = (Ret tt, set_running false s2)).
  { rewrite (process_command_dispatch c s1 Ht), Hexit. cbn [handler].
    rewrite shutdown_spec. reflexivity. }
  assert (Hafter : after_iteration (Nat.iter n after_iteration st) = final).
  { remember (Nat.iter n after_iteration st) as s0 eqn:Hs0.
    unfold after_iteration, run_iteration, try_except, bind.
    rewrite Hlisten, (truthy_strip_lower c Ht), Hproc. reflexivity. }
  split; [exact Hproc |]. split; [reflexivity |]. split; [| split].
  - rewrite run_loop_iter by (intros i Hi; apply Hrun; lia).
    change (2 + fuel) with (S (S fuel)).
    rewrite run_loop_step, (Hrun n) by lia.
    rewrite Hafter, run_loop_step. reflexivity.
  - unfold final. cbn [trace emit_event set_running].
    rewrite filter_app. cbn [filter is_capture]. rewrite app_nil_r.
    apply speak_filter, speech_not_capture.
  - apply (speak_frame "Goodbye!" None s1).
Qed.

Lemma C9_farewell_witness :
  let st := farewell_state in
  let s1 := snd (listen 5 (after_iteration st)) in
  let final :=
    emit_event (EvSleep 0.1%Q)
               (set_running false (snd (speak "Goodbye!" None s1))) in
  listen 5 (Nat.iter 1 after_iteration st) = (Ret (Some "goodbye"), s1)
  /\ classify (strip (lower "goodbye")) = Exit
  /\ running final = false
  /\ run_loop (1 + (2 + 3)) st = Some (Ret tt, final)
  /\ filter is_capture (trace final) = filter is_capture (trace s1).
Proof.
  intros st s1 final.
  assert (Hl : listen 5 (Nat.iter 1 after_iteration st)
               = (Ret (Some "goodbye"), s1)) by (vm_compute; reflexivity).
  split; [exact Hl |]. split; [reflexivity |].
  destruct (C9_exit_stops_the_loop 1 3 st s1 "goodbye")
    as (_ & Hflag & Hloop & Hcap & _).
  - intros [|[|i]] Hi; [reflexivity | vm_compute; reflexivity | lia].
  - exact Hl.
  - reflexivity.
  - reflexivity.
  - split; [exact Hflag |]. split; [exact Hloop | exact Hcap].
Defined.

(** ** Listen: the acknowledgement and the command in the history *)

(** What [np.random.choice] draws is an element of the sequence. *)
Lemma choice_in (l : list string) (i : nat) :
  l <> [] -> In (nth (i mod List.length l) l ""%string) l.
Proof.
  intros Hl. apply nth_In. apply Nat.mod_upper_bound.
  destruct l; [contradiction | discriminate].
Qed.

(** C10, amended: when the wake word is heard, the sink utters the
    acknowledgement without a fault, [max_history] is not negative and the
    command is transcribed too, [listen] returns the command and the history
    ends with the assistant entry of the acknowledgement immediately
    followed by the user entry of the command. *)
Theorem C10_ack_precedes_command
  (st : State) (timeout : Z) (heard heard2 : string) :
  microphone (world st) (n_listen (calls st)) = None ->
  capture (world st) (n_capture (calls st)) = Heard heard ->
  str_in (hotword (config st)) (lower heard) = true ->
  wake_responses (config st) <> [] ->
  sink_faults (tts (world st) (n_speak (calls st))) None = false ->
  capture (world st) (S (n_capture (calls st))) = Heard heard2 ->
  (0 <= max_history (config st))%Z ->
  exists st' older ack,
    listen timeout st = (Ret (Some (lower heard2)), st')
    /\ In ack (wake_responses (config st))
    /\ history st'
       = older
         ++ [Build_HistoryEntry
               (isoformat (clock (world st) (n_clock (calls st))))
               "assistant" ack None;
             Build_HistoryEntry
               (isoformat (clock (world st) (S (n_clock (calls st)))))
               "user" (lower heard2) None].
Proof.
  intros Hmic Hcap Hwake Hresp Hsink Hcap2 Hmax.
  cbv beta iota delta
    [listen with_microphone try_except bind logger_info emit modify
     adjust_for_ambient_noise ret recognize gets np_random_choice
     datetime_now append_history].
  rewrite Hmic. state_simpl. rewrite Hcap. state_simpl. rewrite Hwake.
  state_simpl. pose proof (choice_in _ (choice (world st) (n_choice (calls st)))
                             Hresp) as Hin.
  destruct (wake_responses (config st)) as [|r rs] eqn:Hwr; [contradiction |].
  remember (nth (choice (world st) (n_choice (calls st))
                 mod List.length (r :: rs)) (r :: rs) ""%string) as ack eqn:Hack.
  match goal with |- context [speak ack None ?s] =>
    remember s as st1 eqn:Hst1;
    rewrite (speak_pair ack None st1);
    destruct (speak_frame ack None st1)
      as (_ & Hw & _ & _ & Hnc & _ & _ & _ & _);
    destruct (speak_ok ack None st1) as (_ & Hh & Hclk)
  end.
  { subst st1. exact Hsink. }
  cbv zeta in Hw, Hnc, Hh, Hclk. unfold assistant_entry in Hh.
  remember (snd (speak ack None st1)) as st2 eqn:Hst2.
  subst st1. state_simpl. rewrite Hw, Hnc, Hcap2. state_simpl.
  rewrite Hw, Hclk.
  assert (Holder : exists older,
             history st2
             = older ++ [Build_HistoryEntry
                           (isoformat (clock (world st) (n_clock (calls st))))
                           "assistant" ack None]).
  { rewrite Hh.
    destruct (_ >? _)%Z; [apply slice_from_keeps_last, Hmax |].
    eexists; reflexivity. }
  destruct Holder as [older Holder].
  eexists. exists older, ack. split; [reflexivity |]. split; [exact Hin |].
  state_simpl. rewrite Holder, <- app_assoc. reflexivity.
Qed.

Lemma C10_calm_wake_witness :
  let st := calm_state [Heard "Echo"; Heard "What time is it"] in
  exists st' older ack,
    listen 5 st = (Ret (Some "what time is it"), st')
    /\ In ack (wake_responses (config st))
    /\ history st'
       = older
         ++ [Build_HistoryEntry "2024-05-17T12:00:00" "assistant" ack None;
             Build_HistoryEntry "2024-05-17T12:00:01" "user"
                                "what time is it" None].
Proof.
  apply (C10_ack_precedes_command
           (calm_state [Heard "Echo"; Heard "What time is it"]) 5
           "Echo" "What time is it");
    try reflexivity.
  - discriminate.
  - discriminate.
Defined.

(** C10 as stated fails: the wake word is heard and both transcriptions
    succeed, but the sink raises while the acknowledgement is spoken;
    [speak] records nothing, [listen] goes on, and the user entry is the
    only entry of the history. *)
Lemma C10_busy_sink_counterexample :
  let st := busy_sink_state in
  microphone (world st) (n_listen (calls st)) = None
  /\ capture (world st) 0 = Heard "Echo"
  /\ str_in (hotword (config st)) (lower "Echo") = true
  /\ capture (world st) 1 = Heard "What time is it"
  /\ fst (listen 5 st) = Ret (Some "what time is it")
  /\ history (snd (listen 5 st))
     = [Build_HistoryEntry "2024-05-17T12:00:00" "user"
                           "what time is it" None].
Proof. repeat split. Qed.

(** ** Start-up: the wake responses *)

(** C5, amended: a configuration built from the defaults, or from a file
    that does not itself give [wake_responses] as an empty list (the key is
    absent, null, or a list with an entry), has at least one wake response,
    and the random choice of the wake-word gate returns one of them. *)
Theorem C5_wake_responses_nonempty (f : config_file) :
  (forall data, f = FileJson data ->
                d_wake_responses data <> Some (Some [])) ->
  wake_responses (load_config f) <> []
  /\ forall st, config st = load_config f ->
       exists ack,
         fst (np_random_choice (wake_responses (config st)) st) = Ret ack
         /\ In ack (wake_responses (config st)).
Proof.
  intros Hf.
  assert (Hne : wake_responses (load_config f) <> []).
  { destruct f as [| msg | data]; cbn; try discriminate.
    unfold Config_new. destruct (d_other_keys data); [| discriminate].
    cbn. specialize (Hf data eq_refl).
    destruct (d_wake_responses data) as [[[|r rs]|]|]; cbn;
      try discriminate. now contradict Hf. }
  split; [exact Hne |].
  intros st Hc. rewrite Hc.
  exists (nth (choice (world st) (n_choice (calls st))
               mod List.length (wake_responses (load_config f)))
              (wake_responses (load_config f)) ""%string).
  split; [| apply choice_in, Hne].
  unfold np_random_choice.
  destruct (wake_responses (load_config f)); [contradiction | reflexivity].
Qed.

Lemma C5_null_file_witness :
  wake_responses (load_config null_wake_file)
  = ["Yes?"; "I'm here!"; "How can I assist?"]%string
  /\ wake_responses (load_config null_wake_file) <> []
  /\ forall st, config st = load_config null_wake_file ->
       exists ack,
         fst (np_random_choice (wake_responses (config st)) st) = Ret ack
         /\ In ack (wake_responses (config st)).
Proof.
  split; [reflexivity |].
  apply (C5_wake_responses_nonempty null_wake_file).
  intros data H. injection H as <-. discriminate.
Defined.

(** C5 as stated fails: a configuration file may give [wake_responses] as
    the empty array; [__post_init__] replaces [None] only, the list stays
    empty, and at the wake word [np.random.choice] raises on it, which
    [listen] logs before it returns no command. *)
Lemma C5_empty_list_counterexample :
  let st := EchoAI_init silent_wake_file (scripted_world [] [Heard "Echo"]) in
  wake_responses (config st) = []
  /\ listen 5 st
     = (Ret None,
        emit_event
          (EvLog "ERROR"
             "Listen error: 'a' cannot be empty unless no samples are taken")
          (emit_event (EvCapture 5)
             (set_calls bump_capture
                (emit_event (EvLog "INFO" "Listening for wake word...")
                   (set_calls bump_listen st))))).
Proof. split; reflexivity. Qed.

(** ** The history bound *)

(** After an utterance that the sink completes, the history holds at most
    [max_history] entries, when that is positive. *)
Lemma speak_bounds_history (u : string) (emo : option string) (st : State) :
  sink_faults (tts (world st) (n_speak (calls st))) emo = false ->
  (0 < max_history (config st))%Z ->
  (Z.of_nat (List.length (history (snd (speak u emo st))))
   <= max_history (config st))%Z.
Proof.
  intros Hok Hm. destruct (speak_ok u emo st Hok) as (_ & Hh & _).
  cbv zeta in Hh. rewrite Hh.
  destruct (_ >? _)%Z eqn:E.
  - apply slice_from_length, Hm.
  - rewrite Z.gtb_ltb in E. apply Z.ltb_ge in E. exact E.
Qed.

(** C1 fails on the code: [speak] trims the history after its append,
    [listen] appends the user entry and does not trim.  With the default
    configuration ([max_history] 100), after the greeting and 49 wake-word
    interactions the history holds 99 entries; the 50th adds the
    acknowledgement (100) and the command: 101 entries, none dropped. *)
Theorem C1_listen_exceeds_max_history :
  let st0 := calm_state (wake_interactions 50) in
  let greeted :=
    snd (speak "Hello User, how can I assist you today?" None st0) in
  max_history (config st0) = 100%Z
  /\ List.length (history (listen_times 49 greeted)) = 99
  /\ List.length (history (listen_times 50 greeted)) = 101
  /\ hd_error (history (listen_times 50 greeted))
     = hd_error (history greeted).
Proof. vm_compute. repeat split. Qed.

(** ** Speak: the engine after a fault *)

(** C2 fails on the code: the two resets follow [runAndWait] inside the
    [try], so a fault of the sink skips them.  The sink raises in [say]
    during a "happy" utterance: afterwards the engine is at rate 190 and
    volume 1.0, not at (170, 0.9), and the next utterance, without emotion,
    is said at rate 190. *)
Theorem C2_fault_skips_the_reset :
  let st := busy_sink_state in
  let st1 := snd (speak "Great news" (Some "happy") st) in
  let st2 := snd (speak "Next" None st1) in
  speech_rate (config st) = 170%Z
  /\ fst (speak "Great news" (Some "happy") st) = Ret tt
  /\ engine st1 = Build_Engine 190%Z 1.0%Q
  /\ trace st2
     = [EvLog "ERROR" "Speak error: audio device busy";
        EvSay "Next" 190%Z 0.9%Q; EvRunAndWait].
Proof. vm_compute. repeat split. Qed.

(** * Further properties of the code *)

(** ** A frame rule for the monad *)

Section Frame.

Variable R : State -> State -> Prop.
Variable allowed : Event -> bool.
Hypothesis HR : Framing R allowed.

Lemma frame_ret {A} (a : A) : frame R (ret a).
Proof. intros st. apply (fr_refl _ _ HR). Qed.

Lemma frame_raise {A} (e : exn) : frame R (@raise A e).
Proof. intros st. apply (fr_refl _ _ HR). Qed.

Lemma frame_gets {A} (f : State -> A) : frame R (gets f).
Proof. intros st. apply (fr_refl _ _ HR). Qed.

Lemma frame_bind {A B} (m : M A) (k : A -> M B) :
  frame R m -> (forall a, frame R (k a)) -> frame R (bind m k).
Proof.
  intros Hm Hk st. unfold bind. specialize (Hm st).
  destruct (m st) as [[a|e] s]; cbn in *; [| exact Hm].
  exact (fr_trans _ _ HR _ _ _ Hm (Hk a s)).
Qed.

Lemma frame_try_except {A} (body : M A) (handle : exn -> M A) :
  frame R body -> (forall e, frame R (handle e)) ->
  frame R (try_except body handle).
Proof.
  intros Hm Hk st. unfold try_except. specialize (Hm st).
  destruct (body st) as [[a|e] s]; cbn in *; [exact Hm |].
  exact (fr_trans _ _ HR _ _ _ Hm (Hk e s)).
Qed.

Lemma frame_emit (e : Event) : allowed e = true -> frame R (emit e).
Proof. intros He st. apply (fr_emit _ _ HR), He. Qed.

Lemma frame_calls {A} (f : Calls -> Calls) (g : State -> Result A) :
  frame R (fun st => (g st, set_calls f st)).
Proof. intros st. apply (fr_calls _ _ HR). Qed.

Lemma frame_datetime_now : frame R datetime_now.
Proof. apply frame_calls. Qed.

Lemma frame_sink_outcome : frame R sink_outcome.
Proof. apply frame_calls. Qed.

Lemma frame_engine_do o c (effect : M unit) :
  frame R effect -> frame R (engine_do o c effect).
Proof.
  intros H. unfold engine_do. destruct o as [|c' msg]; [exact H |].
  destruct (engine_call_eqb c c'); [apply frame_raise | exact H].
Qed.

Lemma frame_setProperty_rate v : frame R (setProperty_rate v).
Proof. intros st. apply (fr_engine _ _ HR). Qed.

Lemma frame_setProperty_volume v : frame R (setProperty_volume v).
Proof. intros st. apply (fr_engine _ _ HR). Qed.

Lemma frame_append_history e : frame R (append_history e).
Proof. intros st. apply (fr_history _ _ HR). Qed.

Section Speech.

Hypothesis Hspeech : forall e, is_speech e = true -> allowed e = true.

Lemma frame_logger_error msg : frame R (logger_error msg).
Proof. apply frame_emit, Hspeech. reflexivity. Qed.

Lemma frame_logger_info msg : frame R (logger_info msg).
Proof. apply frame_emit, Hspeech. reflexivity. Qed.

Lemma frame_speak u emo : frame R (speak u emo).
Proof.
  unfold speak.
  apply frame_bind; [apply frame_sink_outcome | intros o].
  apply frame_try_except; [| intros e; apply frame_logger_error].
  apply frame_bind; [apply frame_gets | intros r].
  apply frame_bind.
  { destruct (emotion_is emo "happy");
      [| destruct (emotion_is emo "sad")];
      try apply frame_ret;
      (apply frame_bind; [| intros _; apply frame_ret]);
      apply frame_engine_do, frame_setProperty_rate. }
  intros vol.
  apply frame_bind;
    [apply frame_engine_do, frame_setProperty_volume | intros _].
  apply frame_bind.
  { apply frame_engine_do. intros st. apply (fr_emit _ _ HR), Hspeech.
    reflexivity. }
  intros _. apply frame_bind.
  { apply frame_engine_do, frame_emit, Hspeech. reflexivity. }
  intros _. apply frame_bind;
    [apply frame_engine_do, frame_setProperty_rate | intros _].
  apply frame_bind;
    [apply frame_engine_do, frame_setProperty_volume | intros _].
  apply frame_bind; [apply frame_datetime_now | intros now].
  apply frame_bind; [apply frame_append_history | intros _].
  apply frame_bind; [apply frame_gets | intros h].
  apply frame_bind; [apply frame_gets | intros m].
  destruct (_ >? _)%Z; [| apply frame_ret].
  intros st. apply (fr_history _ _ HR).
Qed.

Lemma frame_handle_time : frame R handle_time.
Proof.
  unfold handle_time.
  apply frame_bind; [apply frame_datetime_now | intros now].
  apply frame_speak.
Qed.

Lemma frame_launched e : allowed e = true -> frame R (launched e).
Proof.
  intros He st. unfold launched.
  assert (H : R st (emit_event e (set_calls bump_launch st))).
  { eapply (fr_trans _ _ HR); [apply (fr_calls _ _ HR) |].
    apply (fr_emit _ _ HR), He. }
  destruct (launch (world st) (n_launch (calls st))); exact H.
Qed.

Lemma frame_handle_search command :
  (forall e, is_launch e = true -> allowed e = true) ->
  frame R (handle_search command).
Proof.
  intros Hl. unfold handle_search. cbv zeta.
  destruct (truthy _); [| apply frame_speak].
  apply frame_bind; [| intros _; apply frame_speak].
  apply frame_launched, Hl. reflexivity.
Qed.

Lemma frame_handle_open command :
  (forall e, is_launch e = true -> allowed e = true) ->
  frame R (handle_open command).
Proof.
  intros Hl. unfold handle_open.
  apply frame_try_except.
  - destruct (str_in "browser" command);
      [| destruct (str_in "notepad" command)];
      try apply frame_speak;
      (apply frame_bind; [| intros _; apply frame_speak]);
      apply frame_launched, Hl; reflexivity.
  - intros e. apply frame_bind;
      [apply frame_logger_error | intros _; apply frame_speak].
Qed.

Lemma frame_session_get url :
  (forall e, is_http_get e = true -> allowed e = true) ->
  frame R (session_get url).
Proof.
  intros Hg st. unfold session_get.
  assert (H : R st (emit_event (EvHttpGet url) (set_calls bump_http st))).
  { eapply (fr_trans _ _ HR); [apply (fr_calls _ _ HR) |].
    apply (fr_emit _ _ HR), Hg. reflexivity. }
  destruct (http (world st) (n_http (calls st))); exact H.
Qed.

Lemma frame_handle_weather command :
  (forall e, is_http_get e = true -> allowed e = true) ->
  frame R (handle_weather command).
Proof.
  intros Hg. unfold handle_weather. cbv zeta.
  apply frame_try_except.
  - apply frame_bind; [apply frame_gets | intros key].
    destruct (truthy key); [| apply frame_speak].
    apply frame_bind; [apply frame_session_get, Hg | intros response].
    destruct (_ =? _)%Z; [| apply frame_speak].
    apply frame_bind; [| intros data; apply frame_speak].
    unfold response_json.
    destruct (snd response); [apply frame_raise | apply frame_ret].
  - intros e. apply frame_bind;
      [apply frame_logger_error | intros _; apply frame_speak].
Qed.

Lemma frame_shutdown :
  (forall b st, R st (set_running b st)) -> frame R shutdown.
Proof.
  intros Hrun. unfold shutdown.
  apply frame_bind; [apply frame_speak | intros _].
  intros st. apply Hrun.
Qed.

Lemma frame_recognize t :
  (forall e, is_capture e = true -> allowed e = true) ->
  frame R (recognize t).
Proof.
  intros Hc st. unfold recognize.
  assert (H : R st (emit_event (EvCapture t) (set_calls bump_capture st))).
  { eapply (fr_trans _ _ HR); [apply (fr_calls _ _ HR) |].
    apply (fr_emit _ _ HR), Hc. reflexivity. }
  destruct (capture (world st) (n_capture (calls st))); exact H.
Qed.

Lemma frame_np_random_choice a : frame R (np_random_choice a).
Proof.
  intros st. unfold np_random_choice.
  destruct a; [apply (fr_refl _ _ HR) | apply (fr_calls _ _ HR)].
Qed.

Lemma frame_listen t :
  (forall e, is_capture e = true -> allowed e = true) ->
  frame R (listen t).
Proof.
  intros Hc st. unfold listen, with_microphone.
  destruct (microphone (world st) (n_listen (calls st)));
    [apply (fr_calls _ _ HR) |].
  apply (fr_trans _ _ HR _ (set_calls bump_listen st));
    [apply (fr_calls _ _ HR) |].
  generalize (set_calls bump_listen st). cbv zeta.
  refine (frame_try_except _ _ _ _).
  - apply frame_bind; [apply frame_logger_info | intros _].
    apply frame_bind; [apply frame_ret | intros _].
    apply frame_bind; [apply frame_recognize, Hc | intros heard].
    apply frame_bind; [apply frame_gets | intros hot].
    destruct (str_in hot (lower heard)); [| apply frame_ret].
    apply frame_bind; [apply frame_gets | intros responses].
    apply frame_bind; [apply frame_np_random_choice | intros ack].
    apply frame_bind; [apply frame_speak | intros _].
    apply frame_bind; [apply frame_recognize, Hc | intros heard2].
    apply frame_bind; [apply frame_datetime_now | intros now].
    apply frame_bind; [apply frame_append_history | intros _].
    apply frame_ret.
  - intros [msg|msg|msg]; try apply frame_ret.
    apply frame_bind; [apply frame_logger_error | intros _; apply frame_ret].
Qed.

(** [process_command] leaves alone what the handler of the command's
    intent leaves alone. *)
Lemma frame_process_command c :
  frame R (handler (classify (strip (lower c))) (strip (lower c))) ->
  frame R (process_command c).
Proof.
  intros Hh st.
  destruct (truthy (strip (lower c))) eqn:Ht.
  - rewrite (process_command_dispatch c st Ht). specialize (Hh st).
    destruct (handler _ _ st) as [[[]|e] s]; cbn in *; [exact Hh |].
    eapply (fr_trans _ _ HR); [exact Hh |].
    apply (frame_bind (logger_error _) (fun _ => speak _ None));
      [apply frame_logger_error | intros _; apply frame_speak].
  - unfold process_command, try_except. cbv zeta. rewrite Ht.
    apply (fr_refl _ _ HR).
Qed.

End Speech.

End Frame.

(** ** The relations that are framed *)

Lemma framing_same_session : Framing same_session (fun _ => true).
Proof.
  split; unfold same_session; cbn; try (intros; split; reflexivity).
  intros a b c [H1 H2] [H3 H4]. split; congruence.
Qed.

Lemma framing_same_flag : Framing same_flag (fun _ => true).
Proof.
  split; unfold same_flag; cbn; try reflexivity.
  intros a b c H1 H2. congruence.
Qed.

Lemma framing_no_new (p : Event -> bool) :
  Framing (no_new p) (fun e => negb (p e)).
Proof.
  split; unfold no_new; cbn; try reflexivity.
  - intros a b c H1 H2. congruence.
  - intros e st He. apply negb_true_iff in He.
    rewrite filter_app. cbn. rewrite He. apply app_nil_r.
Qed.

(** One iteration of the loop respects a framed relation as soon as the
    handler of the command it hears does. *)
Lemma frame_iteration R allowed (HR : Framing R allowed) (st : State) :
  (forall e, is_speech e = true -> allowed e = true) ->
  (forall e, is_capture e = true -> allowed e = true) ->
  (forall e, is_sleep e = true -> allowed e = true) ->
  (forall c s1, listen 5 st = (Ret (Some c), s1) ->
                frame R (handler (classify (strip (lower c)))
                                 (strip (lower c)))) ->
  R st (after_iteration st).
Proof.
  intros Hspeech Hcap Hsleep Hh.
  pose proof (frame_listen R allowed HR Hspeech 5 Hcap st) as Hl.
  unfold after_iteration, run_iteration, try_except, bind.
  destruct (listen 5 st) as [[[c|]|e] s1]; cbn [fst snd] in *.
  - assert (Hp : R s1 (snd ((if truthy c then process_command c else ret tt)
                              s1))).
    { destruct (truthy c); [| apply (fr_refl _ _ HR)].
      apply (frame_process_command R allowed HR Hspeech c).
      exact (Hh c s1 eq_refl). }
    destruct ((if truthy c then process_command c else ret tt) s1)
      as [[[]|e] s2]; cbn [fst snd] in *.
    + apply (fr_trans _ _ HR _ _ _ Hl), (fr_trans _ _ HR _ _ _ Hp).
      apply (fr_emit _ _ HR), Hsleep. reflexivity.
    + apply (fr_trans _ _ HR _ _ _ Hl), (fr_trans _ _ HR _ _ _ Hp).
      apply (frame_bind R allowed HR (logger_error _)
               (fun _ => asyncio_sleep 1%Q)).
      * apply (frame_logger_error R allowed HR Hspeech).
      * intros _. apply (frame_emit R allowed HR), Hsleep. reflexivity.
  - apply (fr_trans _ _ HR _ _ _ Hl).
    apply (fr_emit _ _ HR), Hsleep. reflexivity.
  - apply (fr_trans _ _ HR _ _ _ Hl).
    apply (frame_bind R allowed HR (logger_error _)
             (fun _ => asyncio_sleep 1%Q)).
    + apply (frame_logger_error R allowed HR Hspeech).
    + intros _. apply (frame_emit R allowed HR), Hsleep. reflexivity.
Qed.

(** ** The session's settings *)

Lemma handler_same_session (i : Intent) (u : string) :
  frame same_session (handler i u).
Proof.
  pose proof framing_same_session as HR.
  destruct i; cbn [handler].
  - apply (frame_handle_search _ _ HR); reflexivity.
  - apply (frame_handle_time _ _ HR); reflexivity.
  - apply (frame_handle_weather _ _ HR); reflexivity.
  - apply (frame_handle_open _ _ HR); reflexivity.
  - apply (frame_shutdown _ _ HR); [reflexivity |].
    intros b st. split; reflexivity.
  - apply (frame_speak _ _ HR); reflexivity.
Qed.

(** X1: no method assigns the configuration, and the world outside is not
    the program's to change: after any number of iterations of the loop,
    whatever is heard and whatever fails, the configuration is the one the
    session started with. *)
Theorem X1_settings_never_change (n : nat) (st : State) :
  config (Nat.iter n after_iteration st) = config st
  /\ world (Nat.iter n after_iteration st) = world st.
Proof.
  induction n as [|n IH]; [split; reflexivity |].
  rewrite Nat.iter_succ.
  destruct (frame_iteration same_session _ framing_same_session
              (Nat.iter n after_iteration st)) as [Hc Hw];
    try reflexivity.
  - intros c s1 _. apply handler_same_session.
  - destruct IH as [IHc IHw]. split; congruence.
Qed.

(** ** The flag of the loop *)

Lemma handler_same_flag (i : Intent) (u : string) :
  i <> Exit -> frame same_flag (handler i u).
Proof.
  pose proof framing_same_flag as HR.
  intros Hi. destruct i; cbn [handler]; try contradiction.
  - apply (frame_handle_search _ _ HR); reflexivity.
  - apply (frame_handle_time _ _ HR); reflexivity.
  - apply (frame_handle_weather _ _ HR); reflexivity.
  - apply (frame_handle_open _ _ HR); reflexivity.
  - apply (frame_speak _ _ HR); reflexivity.
Qed.

(** X2: only an Exit command lowers [running].  An iteration of the loop
    in which [listen] does not return a command whose intent is Exit
    (nothing heard, no wake word, a fault, or another command) leaves the
    flag as it was. *)
Theorem X2_only_exit_lowers_the_flag (st : State) :
  (forall c s1, listen 5 st = (Ret (Some c), s1) ->
                classify (strip (lower c)) <> Exit) ->
  running (after_iteration st) = running st.
Proof.
  intros Hne.
  apply (frame_iteration same_flag _ framing_same_flag st);
    try reflexivity.
  intros c s1 Hl. apply handler_same_flag. exact (Hne c s1 Hl).
Qed.

Lemma X2_time_command_witness :
  running (after_iteration farewell_state) = running farewell_state.
Proof.
  apply (X2_only_exit_lowers_the_flag farewell_state).
  intros c s1 Hl.
  assert (Hc : fst (listen 5 farewell_state) = Ret (Some c))
    by (rewrite Hl; reflexivity).
  vm_compute in Hc. injection Hc as <-. vm_compute. discriminate.
Defined.

(** ** The network and the programs started *)




Lemma handler_no_launch (i : Intent) (u : string) :
  i <> Search -> i <> Open -> frame (no_new is_launch) (handler i u).
Proof.
  pose proof (framing_no_new is_launch) as HR.
  assert (Hs : forall e, is_speech e = true -> negb (is_launch e) = true)
    by (intros []; cbn; congruence).
  assert (Hg : forall e, is_http_get e = true -> negb (is_launch e) = true)
    by (intros []; cbn; congruence).
  intros Hi Ho. destruct i; cbn [handler]; try contradiction.
  - apply (frame_handle_time _ _ HR Hs).
  - apply (frame_handle_weather _ _ HR Hs _ Hg).
  - apply (frame_shutdown _ _ HR Hs). reflexivity.
  - apply (frame_speak _ _ HR Hs).
Qed.

(** X4: the browser and the shell are reached from the Search and Open
    handlers only.  An iteration of the loop in which [listen] does not
    return a command whose intent is Search or Open starts no program. *)
Theorem X4_only_search_and_open_launch (st : State) :
  (forall c s1, listen 5 st = (Ret (Some c), s1) ->
                classify (strip (lower c)) <> Search
                /\ classify (strip (lower c)) <> Open) ->
  filter is_launch (trace (after_iteration st))
  = filter is_launch (trace st).
Proof.
  intros Hne.
  apply (frame_iteration (no_new is_launch) _ (framing_no_new is_launch) st).
  - intros []; cbn; congruence.
  - intros []; cbn; congruence.
  - intros []; cbn; congruence.
  - intros c s1 Hl. destruct (Hne c s1 Hl). now apply handler_no_launch.
Qed.

Lemma X4_time_command_witness :
  filter is_launch (trace (after_iteration farewell_state))
  = filter is_launch (trace farewell_state).
Proof.
  apply (X4_only_search_and_open_launch farewell_state).
  intros c s1 Hl.
  assert (Hc : fst (listen 5 farewell_state) = Ret (Some c))
    by (rewrite Hl; reflexivity).
  vm_compute in Hc. injection Hc as <-. vm_compute.
  split; discriminate.
Defined.

(** ** Exceptions that do not escape *)




(** X6: a command that is empty, or nothing but white space once
    lower-cased and stripped, is dropped: the iteration that hears it
    speaks nothing, runs no handler and only sleeps its 0.1 s. *)
Theorem X6_blank_command_is_dropped (st s1 : State) (c : string) :
  listen 5 st = (Ret (Some c), s1) ->
  truthy (strip (lower c)) = false ->
  after_iteration st = emit_event (EvSleep 0.1%Q) s1.
Proof.
  intros Hl Hblank.
  unfold after_iteration, run_iteration, try_except, bind. rewrite Hl.
  destruct (truthy c); [| reflexivity].
  unfold process_command, try_except. cbv zeta. rewrite Hblank.
  reflexivity.
Qed.

Lemma X6_blank_command_witness :
  let st := calm_state [Heard "Echo"; Heard "   "] in
  after_iteration st = emit_event (EvSleep 0.1%Q) (snd (listen 5 st)).
Proof.
  apply (X6_blank_command_is_dropped
           (calm_state [Heard "Echo"; Heard "   "]) _ "   ");
    vm_compute; reflexivity.
Defined.

(** ** The weather handler *)

(** X7: with an API key configured, [handle_weather] sends exactly one
    GET, to the URL built from the key and the location, whatever the
    service answers: it does not retry. *)
Theorem X7_weather_sends_one_get (command : string) (st : State) :
  weather_api_key (config st) <> ""%string ->
  filter is_http_get (trace (snd (handle_weather command st)))
  = filter is_http_get (trace st)
    ++ [EvHttpGet (weather_url (weather_api_key (config st))
                               (weather_location command))].
Proof.
  intros Hkey.
  assert (Ht : truthy (weather_api_key (config st)) = true)
    by (destruct (weather_api_key (config st)); [contradiction | reflexivity]).
  pose proof (framing_no_new is_http_get) as HR.
  assert (Hs : forall e, is_speech e = true -> negb (is_http_get e) = true)
    by (intros []; cbn; congruence).
  set (url := weather_url (weather_api_key (config st))
                          (weather_location command)).
  set (s1 := emit_event (EvHttpGet url) (set_calls bump_http st)).
  assert (H1 : filter is_http_get (trace s1)
               = filter is_http_get (trace st) ++ [EvHttpGet url]).
  { unfold s1. cbn [trace emit_event set_calls]. now rewrite filter_app. }
  rewrite <- H1.
  assert (Hfallback : forall e s,
             no_new is_http_get s
               (snd ((logger_error ("Weather error: " ++ str_exn e)%string ;;
                      speak "I couldn't retrieve the weather information."
                            None) s))).
  { intros e. apply (frame_bind _ _ HR);
      [apply (frame_logger_error _ _ HR Hs)
      | intros _; apply (frame_speak _ _ HR Hs)]. }
  unfold handle_weather, try_except, bind, gets. cbv zeta.
  rewrite Ht. fold (weather_location command).
  fold (weather_url (weather_api_key (config st)) (weather_location command)).
  fold url. unfold session_get. fold s1.
  destruct (http (world st) (n_http (calls st))) as [e | status body].
  - apply Hfallback.
  - cbn [fst snd]. destruct (status =? 200)%Z.
    + destruct body as [e | d]; cbn [response_json raise ret].
      * apply Hfallback.
      * match goal with |- context [speak ?u None s1] =>
          rewrite (speak_pair u None s1);
          apply (frame_speak _ _ HR Hs u None s1) end.
    + match goal with |- context [speak ?u None s1] =>
        rewrite (speak_pair u None s1);
        apply (frame_speak _ _ HR Hs u None s1) end.
Qed.

Lemma X7_weather_one_get_witness :
  let st := EchoAI_init keyed_file (scripted_world [] []) in
  filter is_http_get (trace (snd (handle_weather "weather in boston" st)))
  = [EvHttpGet
       "https://api.weatherapi.com/v1/current.json?key=k3y&q=boston"].
Proof.
  apply (X7_weather_sends_one_get "weather in boston"
           (EchoAI_init keyed_file (scripted_world [] []))).
  discriminate.
Defined.

Lemma truthy_nonempty (s : string) : s <> ""%string -> truthy s = true.
Proof. destruct s; [contradiction | reflexivity]. Qed.

(** X8: with a key, an answer 200 and a working sink, [handle_weather]
    sends its GET and then says the weather of the location with the
    condition and the temperature of the answer. *)
Theorem X8_weather_report (command : string) (st : State) (d : WeatherData) :
  weather_api_key (config st) <> ""%string ->
  http (world st) (n_http (calls st)) = HttpResponse 200%Z (inr d) ->
  tts (world st) (n_speak (calls st)) = TtsOk ->
  trace (snd (handle_weather command st))
  = trace st
    ++ [EvHttpGet (weather_url (weather_api_key (config st))
                               (weather_location command));
        EvSay ("The weather in " ++ weather_location command ++ " is "
               ++ condition_text d ++ " with a temperature of " ++ temp_c d
               ++ " degrees Celsius.")%string
              (rate (engine st)) 0.9%Q;
        EvRunAndWait].
Proof.
  intros Hkey Hhttp Hsink.
  unfold handle_weather, try_except, bind, gets. cbv zeta.
  rewrite (truthy_nonempty _ Hkey). fold (weather_location command).
  unfold session_get. rewrite Hhttp. cbn [fst snd Z.eqb Pos.eqb response_json ret].
  match goal with |- context [speak ?u None ?s] =>
    rewrite (speak_pair u None s); cbn [snd];
    rewrite (speak_plain_trace u s Hsink) end.
  cbn [trace emit_event set_calls engine]. rewrite <- app_assoc. reflexivity.
Qed.

Lemma X8_sunny_witness :
  trace (snd (handle_weather "weather in boston"
                (EchoAI_init keyed_file sunny_world)))
  = [EvHttpGet "https://api.weatherapi.com/v1/current.json?key=k3y&q=boston";
     EvSay "The weather in boston is Sunny with a temperature of 20.5 degrees Celsius."
           170%Z 0.9%Q;
     EvRunAndWait].
Proof.
  apply (X8_weather_report "weather in boston"
           (EchoAI_init keyed_file sunny_world)
           (Build_WeatherData "20.5" "Sunny")).
  - discriminate.
  - reflexivity.
  - reflexivity.
Defined.

(** X9: when the request raises, or the body of an answer 200 cannot be
    read, [handle_weather] logs the fault and says that it could not
    retrieve the weather: the text of the exception is logged, not
    spoken. *)
Theorem X9_weather_fault (command : string) (st : State) (e : exn) :
  weather_api_key (config st) <> ""%string ->
  http (world st) (n_http (calls st)) = HttpRaises e
  \/ http (world st) (n_http (calls st)) = HttpResponse 200%Z (inl e) ->
  tts (world st) (n_speak (calls st)) = TtsOk ->
  trace (snd (handle_weather command st))
  = trace st
    ++ [EvHttpGet (weather_url (weather_api_key (config st))
                               (weather_location command));
        EvLog "ERROR" ("Weather error: " ++ str_exn e)%string;
        EvSay "I couldn't retrieve the weather information."
              (rate (engine st)) 0.9%Q;
        EvRunAndWait].
Proof.
  intros Hkey Hhttp Hsink.
  unfold handle_weather, try_except, bind, gets. cbv zeta.
  rewrite (truthy_nonempty _ Hkey). fold (weather_location command).
  unfold session_get.
  destruct Hhttp as [Hhttp | Hhttp]; rewrite Hhttp;
    cbn [fst snd Z.eqb Pos.eqb response_json raise];
    unfold logger_error, emit, modify;
    match goal with |- context [speak ?u None ?s] =>
      rewrite (speak_plain_trace u s Hsink) end;
    cbn [trace emit_event set_calls engine];
    rewrite <- !app_assoc; reflexivity.
Qed.

Lemma X9_unreachable_witness :
  trace (snd (handle_weather "weather"
                (EchoAI_init keyed_file (scripted_world [] []))))
  = [EvHttpGet
       "https://api.weatherapi.com/v1/current.json?key=k3y&q=New York";
     EvLog "ERROR" "Weather error: Cannot connect to host";
     EvSay "I couldn't retrieve the weather information." 170%Z 0.9%Q;
     EvRunAndWait].
Proof.
  apply (X9_weather_fault "weather"
           (EchoAI_init keyed_file (scripted_world [] []))
           (OtherException "Cannot connect to host")).
  - discriminate.
  - left. reflexivity.
  - reflexivity.
Defined.

(** X10: on any status other than 200 [handle_weather] does not read the
    body: it says that it could not get the weather for the location, and
    logs nothing. *)
Theorem X10_weather_other_status
  (command : string) (st : State) (status : Z) (body : exn + WeatherData) :
  weather_api_key (config st) <> ""%string ->
  http (world st) (n_http (calls st)) = HttpResponse status body ->
  status <> 200%Z ->
  tts (world st) (n_speak (calls st)) = TtsOk ->
  trace (snd (handle_weather command st))
  = trace st
    ++ [EvHttpGet (weather_url (weather_api_key (config st))
                               (weather_location command));
        EvSay ("Sorry, I couldn't get the weather for "
               ++ weather_location command ++ ".")%string
              (rate (engine st)) 0.9%Q;
        EvRunAndWait].
Proof.
  intros Hkey Hhttp Hstatus Hsink.
  unfold handle_weather, try_except, bind, gets. cbv zeta.
  rewrite (truthy_nonempty _ Hkey). fold (weather_location command).
  unfold session_get. rewrite Hhttp. cbn [fst snd].
  apply Z.eqb_neq in Hstatus. rewrite Hstatus.
  match goal with |- context [speak ?u None ?s] =>
    rewrite (speak_pair u None s); cbn [snd];
    rewrite (speak_plain_trace u s Hsink) end.
  cbn [trace emit_event set_calls engine]. rewrite <- app_assoc. reflexivity.
Qed.

Lemma X10_stormy_witness :
  trace (snd (handle_weather "weather in boston"
                (EchoAI_init keyed_file stormy_world)))
  = [EvHttpGet "https://api.weatherapi.com/v1/current.json?key=k3y&q=boston";
     EvSay "Sorry, I couldn't get the weather for boston." 170%Z 0.9%Q;
     EvRunAndWait].
Proof.
  apply (X10_weather_other_status "weather in boston"
           (EchoAI_init keyed_file stormy_world) 503%Z
           (inl (OtherException "Service Unavailable"))).
  - discriminate.
  - reflexivity.
  - discriminate.
  - reflexivity.
Defined.

(** ** The Open handler *)

(** X11: a command that names the browser opens the browser, also when it
    names notepad as well, and never runs the shell; when the browser call
    raises, the fault is logged and an apology is spoken instead of the
    confirmation. *)
Theorem X11_open_browser (command : string) (st : State) :
  str_in "browser" command = true ->
  tts (world st) (n_speak (calls st)) = TtsOk ->
  trace (snd (handle_open command st))
  = trace st
    ++ EvBrowserOpen "https://www.google.com"
       :: match launch (world st) (n_launch (calls st)) with
          | None =>
              [EvSay "Opening web browser" (rate (engine st)) 0.9%Q;
               EvRunAndWait]
          | Some e =>
              [EvLog "ERROR" ("Open app error: " ++ str_exn e)%string;
               EvSay "I couldn't open that application."
                     (rate (engine st)) 0.9%Q;
               EvRunAndWait]
          end.
Proof.
  intros Hb Hsink.
  unfold handle_open, try_except, bind. rewrite Hb.
  unfold webbrowser_open, launched.
  destruct (launch (world st) (n_launch (calls st))) as [e|].
  - unfold logger_error, emit, modify.
    match goal with |- context [speak ?u None ?s] =>
      rewrite (speak_plain_trace u s Hsink) end.
    cbn [trace emit_event set_calls engine].
    rewrite <- !app_assoc. reflexivity.
  - match goal with |- context [speak ?u None ?s] =>
      rewrite (speak_pair u None s); cbn [snd];
      rewrite (speak_plain_trace u s Hsink) end.
    cbn [trace emit_event set_calls engine].
    rewrite <- !app_assoc. reflexivity.
Qed.

Lemma X11_no_browser_witness :
  trace (snd (handle_open "open notepad and the browser"
                (EchoAI_init FileMissing no_browser_world)))
  = [EvBrowserOpen "https://www.google.com";
     EvLog "ERROR" "Open app error: could not locate runnable browser";
     EvSay "I couldn't open that application." 170%Z 0.9%Q;
     EvRunAndWait].
Proof.
  apply (X11_open_browser "open notepad and the browser"
           (EchoAI_init FileMissing no_browser_world));
    reflexivity.
Defined.

(** X12: a command that names neither the browser nor notepad starts
    nothing: [handle_open] only says what it can open. *)
Theorem X12_open_unsupported (command : string) (st : State) :
  str_in "browser" command = false ->
  str_in "notepad" command = false ->
  handle_open command st
  = speak "I can only open browser or notepad at the moment." None st
  /\ filter is_launch (trace (snd (handle_open command st)))
     = filter is_launch (trace st).
Proof.
  intros Hb Hn.
  assert (E : handle_open command st
              = speak "I can only open browser or notepad at the moment."
                      None st).
  { unfold handle_open, try_except. rewrite Hb, Hn.
    rewrite (speak_pair _ None st). reflexivity. }
  split; [exact E |]. rewrite E. apply speak_filter, speech_not_launch.
Qed.

Lemma X12_open_calculator_witness :
  let st := calm_state [] in
  handle_open "open the calculator" st
  = speak "I can only open browser or notepad at the moment." None st
  /\ filter is_launch (trace (snd (handle_open "open the calculator" st)))
     = filter is_launch (trace st).
Proof.
  apply (X12_open_unsupported "open the calculator" (calm_state []));
    reflexivity.
Defined.

(** ** A search that cannot open the browser *)

(** X13: [handle_search] does not catch a fault of the browser;
    [process_command] does: it logs the fault and speaks its apology, and
    "Searching for ..." is never said. *)
Theorem X13_search_fault_is_apologised (c : string) (st : State) (e : exn) :
  str_in "search" (strip (lower c)) = true ->
  search_query (strip (lower c)) <> ""%string ->
  launch (world st) (n_launch (calls st)) = Some e ->
  tts (world st) (n_speak (calls st)) = TtsOk ->
  fst (handle_search (strip (lower c)) st) = Raise e
  /\ trace (snd (process_command c st))
     = trace st
       ++ [EvBrowserOpen ("https://www.google.com/search?q="
                          ++ search_query (strip (lower c)))%string;
           EvLog "ERROR" ("Command processing error: " ++ str_exn e)%string;
           EvSay "Sorry, I encountered an error processing that command."
                 (rate (engine st)) 0.9%Q;
           EvRunAndWait].
Proof.
  intros Hs Hq Hl Hsink.
  assert (Hraise : handle_search (strip (lower c)) st
                   = (Raise e,
                      emit_event
                        (EvBrowserOpen ("https://www.google.com/search?q="
                                        ++ search_query (strip (lower c))))
                        (set_calls bump_launch st))).
  { unfold handle_search. cbv zeta. fold (search_query (strip (lower c))).
    rewrite (truthy_nonempty _ Hq).
    unfold bind, webbrowser_open, launched. rewrite Hl. reflexivity. }
  split; [rewrite Hraise; reflexivity |].
  assert (Ht : truthy (strip (lower c)) = true).
  { destruct (strip (lower c)); [discriminate Hs | reflexivity]. }
  rewrite (process_command_dispatch c st Ht), classify_chain, Hs.
  cbn [handler]. rewrite Hraise.
  unfold bind, logger_error, emit, modify.
  match goal with |- context [speak ?u None ?s] =>
    rewrite (speak_plain_trace u s Hsink) end.
  cbn [trace emit_event set_calls engine]. rewrite <- !app_assoc. reflexivity.
Qed.

Lemma X13_no_browser_witness :
  trace (snd (process_command "Search for cats"
                (EchoAI_init FileMissing no_browser_world)))
  = [EvBrowserOpen "https://www.google.com/search?q=cats";
     EvLog "ERROR"
           "Command processing error: could not locate runnable browser";
     EvSay "Sorry, I encountered an error processing that command."
           170%Z 0.9%Q;
     EvRunAndWait].
Proof.
  apply (X13_search_fault_is_apologised "Search for cats"
           (EchoAI_init FileMissing no_browser_world)
           (OtherException "could not locate runnable browser")).
  - reflexivity.
  - discriminate.
  - reflexivity.
  - reflexivity.
Defined.

(** ** Listen: what is not heard *)

(** X14: when the first capture times out or is not understood, [listen]
    returns no command without a trace in the log beyond its "Listening"
    line; any other exception of the recogniser is logged as a "Listen
    error".  In both cases the history is untouched and nothing is
    spoken. *)
Theorem X14_listen_capture_raises (st : State) (t : Z) (e : exn) :
  microphone (world st) (n_listen (calls st)) = None ->
  capture (world st) (n_capture (calls st)) = CaptureRaises e ->
  exists st',
    listen t st = (Ret None, st')
    /\ history st' = history st
    /\ trace st'
       = trace st
         ++ [EvLog "INFO" "Listening for wake word..."; EvCapture t]
         ++ match e with
            | OtherException msg =>
                [EvLog "ERROR" ("Listen error: " ++ msg)%string]
            | _ => []
            end.
Proof.
  intros Hmic Hcap. run_listen. rewrite Hmic. cbn -[str_in lower].
  rewrite Hcap. destruct e as [msg|msg|msg]; cbn;
    eexists; (split; [reflexivity |]); (split; [reflexivity |]);
    cbn; rewrite <- ?app_assoc; reflexivity.
Qed.

Lemma X14_timeout_witness :
  let st := calm_state [] in
  exists st',
    listen 5 st = (Ret None, st')
    /\ history st' = history st
    /\ trace st'
       = trace st
         ++ [EvLog "INFO" "Listening for wake word..."; EvCapture 5%Z] ++ [].
Proof.
  apply (X14_listen_capture_raises (calm_state []) 5
           (WaitTimeoutError "listening timed out"));
    reflexivity.
Defined.

(** X15: when the wake word is heard and acknowledged but the command
    that follows is not transcribed, [listen] returns no command; the
    acknowledgement stays in the history as its last entry and no user
    entry is added. *)
Theorem X15_command_not_transcribed
  (st : State) (t : Z) (heard : string) (e : exn) :
  microphone (world st) (n_listen (calls st)) = None ->
  capture (world st) (n_capture (calls st)) = Heard heard ->
  str_in (hotword (config st)) (lower heard) = true ->
  wake_responses (config st) <> [] ->
  sink_faults (tts (world st) (n_speak (calls st))) None = false ->
  capture (world st) (S (n_capture (calls st))) = CaptureRaises e ->
  (0 <= max_history (config st))%Z ->
  exists st' older ack,
    listen t st = (Ret None, st')
    /\ In ack (wake_responses (config st))
    /\ history st'
       = older
         ++ [Build_HistoryEntry
               (isoformat (clock (world st) (n_clock (calls st))))
               "assistant" ack None].
Proof.
  intros Hmic Hcap Hwake Hresp Hsink Hcap2 Hmax.
  cbv beta iota delta
    [listen with_microphone try_except bind logger_info emit modify
     adjust_for_ambient_noise ret recognize gets np_random_choice
     datetime_now append_history].
  rewrite Hmic. state_simpl. rewrite Hcap. state_simpl. rewrite Hwake.
  state_simpl. pose proof (choice_in _ (choice (world st) (n_choice (calls st)))
                             Hresp) as Hin.
  destruct (wake_responses (config st)) as [|r rs] eqn:Hwr; [contradiction |].
  remember (nth (choice (world st) (n_choice (calls st))
                 mod List.length (r :: rs)) (r :: rs) ""%string) as ack eqn:Hack.
  match goal with |- context [speak ack None ?s] =>
    remember s as st1 eqn:Hst1;
    rewrite (speak_pair ack None st1);
    destruct (speak_frame ack None st1)
      as (_ & Hw & _ & _ & Hnc & _ & _ & _ & _);
    destruct (speak_ok ack None st1) as (_ & Hh & _)
  end.
  { subst st1. exact Hsink. }
  cbv zeta in Hw, Hnc, Hh. unfold assistant_entry in Hh.
  remember (snd (speak ack None st1)) as st2 eqn:Hst2.
  subst st1. state_simpl. rewrite Hw, Hnc, Hcap2.
  assert (Holder : exists older,
             history st2
             = older ++ [Build_HistoryEntry
                           (isoformat (clock (world st) (n_clock (calls st))))
                           "assistant" ack None]).
  { rewrite Hh.
    destruct (_ >? _)%Z; [apply slice_from_keeps_last, Hmax |].
    eexists; reflexivity. }
  destruct Holder as [older Holder].
  destruct e as [msg|msg|msg]; cbn [fst snd];
    eexists; exists older, ack; (split; [reflexivity |]);
    (split; [exact Hin |]); state_simpl; exact Holder.
Qed.

Lemma X15_lost_command_witness :
  let st := calm_state [Heard "Echo"] in
  exists st' older ack,
    listen 5 st = (Ret None, st')
    /\ In ack (wake_responses (config st))
    /\ history st'
       = older
         ++ [Build_HistoryEntry "2024-05-17T12:00:00" "assistant" ack None].
Proof.
  apply (X15_command_not_transcribed (calm_state [Heard "Echo"]) 5 "Echo"
           (WaitTimeoutError "listening timed out"));
    try reflexivity.
  - discriminate.
  - discriminate.
Defined.

(** ** The loop *)

(** X16: when the microphone cannot be opened, [listen] raises; the loop
    catches the exception, logs a "Main loop error", sleeps one second
    instead of 0.1 s and goes on: nothing is spoken and the flag stays
    up. *)
Theorem X16_loop_survives_the_microphone (st : State) (t : Z) (e : exn) :
  microphone (world st) (n_listen (calls st)) = Some e ->
  listen t st = (Raise e, set_calls bump_listen st)
  /\ after_iteration st
     = emit_event (EvSleep 1%Q)
         (emit_event (EvLog "ERROR" ("Main loop error: " ++ str_exn e)%string)
            (set_calls bump_listen st)).
Proof.
  intros Hmic.
  assert (Hl : forall t', listen t' st = (Raise e, set_calls bump_listen st)).
  { intros t'. unfold listen, with_microphone. rewrite Hmic. reflexivity. }
  split; [apply Hl |].
  unfold after_iteration, run_iteration, try_except, bind. rewrite Hl.
  reflexivity.
Qed.

Lemma X16_no_microphone_witness :
  let st := EchoAI_init FileMissing no_microphone_world in
  running (after_iteration st) = true
  /\ trace (after_iteration st)
     = [EvLog "ERROR" "Main loop error: No Default Input Device Available";
        EvSleep 1%Q].
Proof.
  destruct (X16_loop_survives_the_microphone
              (EchoAI_init FileMissing no_microphone_world) 5
              (OtherException "No Default Input Device Available") eq_refl)
    as [_ H].
  cbv zeta. rewrite H. split; reflexivity.
Defined.



(** X18: silence does not end the session.  In a world where the
    microphone opens and every capture times out, the loop never ends: no
    amount of fuel reaches its exit. *)
Theorem X18_silence_keeps_the_loop_running (fuel : nat) (st : State) :
  silent (world st) -> running st = true -> run_loop fuel st = None.
Proof.
  revert st. induction fuel as [|fuel IH]; intros st Hs Hr; [reflexivity |].
  rewrite run_loop_step, Hr.
  assert (Hnone : forall c s1, listen 5 st <> (Ret (Some c), s1)).
  { intros c s1. destruct Hs as [Hmic Hcap].
    destruct (Hcap (n_capture (calls st))) as [msg Hc].
    run_listen. rewrite Hmic. cbn -[str_in lower]. rewrite Hc. cbn.
    discriminate. }
  apply IH.
  - destruct (frame_iteration same_session _ framing_same_session st)
      as [_ Hw]; try reflexivity.
    + intros c s1 Hl. destruct (Hnone c s1 Hl).
    + rewrite Hw. exact Hs.
  - rewrite <- Hr.
    apply (frame_iteration same_flag _ framing_same_flag st);
      try reflexivity.
    intros c s1 Hl. destruct (Hnone c s1 Hl).
Qed.

Lemma X18_silent_witness :
  silent (world (calm_state [])) /\ running (calm_state []) = true
  /\ run_loop 1000 (calm_state []) = None.
Proof.
  assert (Hs : silent (world (calm_state []))).
  { split; [reflexivity |]. intros n. exists "listening timed out"%string.
    cbn. unfold script. destruct n as [|[|n]]; reflexivity. }
  split; [exact Hs |]. split; [reflexivity |].
  apply (X18_silence_keeps_the_loop_running 1000 (calm_state []) Hs).
  reflexivity.
Defined.

(** ** Speak: emotions *)

(** X19: with a working sink, a "happy" utterance is said at the
    configured rate plus 20 and volume 1.0, a "sad" one at the configured
    rate minus 20 and volume 0.8, and after either the engine is back at
    the configured rate and volume 0.9. *)
Theorem X19_emotions (u : string) (st : State) :
  tts (world st) (n_speak (calls st)) = TtsOk ->
  let r := speech_rate (config st) in
  let happy := snd (speak u (Some "happy"%string) st) in
  let sad := snd (speak u (Some "sad"%string) st) in
  trace happy = trace st ++ [EvSay u (r + 20)%Z 1.0%Q; EvRunAndWait]
  /\ trace sad = trace st ++ [EvSay u (r - 20)%Z 0.8%Q; EvRunAndWait]
  /\ engine happy = Build_Engine r 0.9%Q
  /\ engine sad = Build_Engine r 0.9%Q.
Proof.
  intros Hok r happy sad. subst r happy sad.
  assert (Hh : sink_faults (tts (world st) (n_speak (calls st)))
                           (Some "happy"%string) = false)
    by (rewrite Hok; reflexivity).
  assert (Hs : sink_faults (tts (world st) (n_speak (calls st)))
                           (Some "sad"%string) = false)
    by (rewrite Hok; reflexivity).
  destruct (speak_ok u _ st Hh) as (Heh & _ & _).
  destruct (speak_ok u _ st Hs) as (Hes & _ & _).
  assert (Htrace : forall emo rate vol,
             (emo = "happy"%string /\ rate = (speech_rate (config st) + 20)%Z
              /\ vol = 1.0%Q)
             \/ (emo = "sad"%string
                 /\ rate = (speech_rate (config st) - 20)%Z /\ vol = 0.8%Q) ->
             trace (snd (speak u (Some emo) st))
             = trace st ++ [EvSay u rate vol; EvRunAndWait]).
  { intros emo rate vol [(-> & -> & ->) | (-> & -> & ->)];
      cbv beta iota delta
        [speak bind try_except sink_outcome gets engine_do ret raise modify
         setProperty_rate setProperty_volume engine_say engine_runAndWait emit
         datetime_now append_history logger_error engine_call_eqb];
      rewrite Hok;
      cbn -[isoformat slice_from Z.gtb Z.of_nat Z.opp Z.add Z.sub];
      split_trim; cbn -[Z.add Z.sub]; now rewrite <- app_assoc. }
  split; [apply Htrace; left; repeat split |].
  split; [apply Htrace; right; repeat split |].
  split; [exact Heh | exact Hes].
Qed.

Lemma X19_happy_witness :
  trace (snd (speak "Great news" (Some "happy"%string) (calm_state [])))
  = [EvSay "Great news" 190%Z 1.0%Q; EvRunAndWait]
  /\ engine (snd (speak "Great news" (Some "happy"%string) (calm_state [])))
     = Build_Engine 170%Z 0.9%Q.
Proof.
  destruct (X19_emotions "Great news" (calm_state []) eq_refl)
    as (Ht & _ & He & _).
  split; [exact Ht | exact He].
Defined.

(** ** The history at its bound *)

(** X20: when the history holds exactly [max_history] entries (at least
    one), an utterance that the sink completes drops the oldest entry and
    appends its own: the others keep their order. *)
Theorem X20_speak_drops_the_oldest
  (u : string) (emo : option string) (st : State)
  (oldest : HistoryEntry) (rest : list HistoryEntry) :
  sink_faults (tts (world st) (n_speak (calls st))) emo = false ->
  history st = oldest :: rest ->
  Z.of_nat (List.length (history st)) = max_history (config st) ->
  history (snd (speak u emo st)) = rest ++ [assistant_entry u emo st].
Proof.
  intros Hok Hh Hfull. destruct (speak_ok u emo st Hok) as (_ & H & _).
  cbv zeta in H. rewrite H, <- Hfull, Hh.
  set (e := assistant_entry u emo st).
  assert (Hlen : Z.of_nat (List.length ((oldest :: rest) ++ [e]))
                 = (Z.of_nat (List.length (oldest :: rest)) + 1)%Z)
    by (rewrite length_app; cbn [List.length]; lia).
  replace (_ >? _)%Z with true by (symmetry; apply Z.gtb_lt; lia).
  unfold slice_from. rewrite Hlen.
  replace (_ <? 0)%Z with true
    by (symmetry; apply Z.ltb_lt; cbn [List.length]; lia).
  replace (Z.to_nat _) with 1 by lia. reflexivity.
Qed.

Lemma X20_full_history_witness :
  let st := EchoAI_init one_entry_file (scripted_world [] []) in
  let greeted := snd (speak "Hello" None st) in
  history (snd (speak "Again" None greeted))
  = [assistant_entry "Again" None greeted].
Proof.
  intros st greeted.
  apply (X20_speak_drops_the_oldest "Again" None greeted
           (assistant_entry "Hello" None st) []);
    vm_compute; reflexivity.
Defined.

(** X21: whatever the sink does, [speak] never takes the history above a
    positive [max_history]: a history within the bound stays within it. *)
Theorem X21_speak_keeps_the_bound
  (u : string) (emo : option string) (st : State) :
  (0 < max_history (config st))%Z ->
  (Z.of_nat (List.length (history st)) <= max_history (config st))%Z ->
  (Z.of_nat (List.length (history (snd (speak u emo st))))
   <= max_history (config st))%Z.
Proof.
  intros Hm Hb.
  destruct (sink_faults (tts (world st) (n_speak (calls st))) emo) eqn:Hf.
  - destruct (speak_fault u emo st Hf) as [Hh _]. cbv zeta in Hh.
    rewrite Hh. exact Hb.
  - apply speak_bounds_history; assumption.
Qed.

Lemma X21_bound_witness :
  let st := EchoAI_init one_entry_file (scripted_world [] []) in
  (Z.of_nat (List.length (history (snd (speak "Hello" None st)))) <= 1)%Z.
Proof.
  apply (X21_speak_keeps_the_bound "Hello" None
           (EchoAI_init one_entry_file (scripted_world [] [])));
    vm_compute; congruence.
Defined.

(** X22: a [max_history] of 0 is no bound at all: the slice that trims
    the history, [history[-0:]], is the whole list, so every utterance the
    sink completes makes the history one entry longer. *)
Theorem X22_zero_bound_never_trims
  (u : string) (emo : option string) (st : State) :
  max_history (config st) = 0%Z ->
  sink_faults (tts (world st) (n_speak (calls st))) emo = false ->
  history (snd (speak u emo st)) = history st ++ [assistant_entry u emo st].
Proof.
  intros Hm Hok. destruct (speak_ok u emo st Hok) as (_ & H & _).
  cbv zeta in H. rewrite H, Hm.
  match goal with |- (if ?b then _ else _) = _ => destruct b end;
    [| reflexivity].
  unfold slice_from. change (- 0 <? 0)%Z with false. cbv iota.
  rewrite Z.min_l by lia. reflexivity.
Qed.

Lemma X22_zero_bound_witness :
  let st := EchoAI_init zero_history_file (scripted_world [] []) in
  List.length
    (history (snd (speak "Again" None (snd (speak "Hello" None st))))) = 2.
Proof.
  intros st.
  rewrite (X22_zero_bound_never_trims "Again" None
             (snd (speak "Hello" None st)))
    by (vm_compute; reflexivity).
  rewrite (X22_zero_bound_never_trims "Hello" None st)
    by (vm_compute; reflexivity).
  reflexivity.
Defined.

(** ** The configuration file *)

(** X23: what [save_config] writes, [load_config] reads back: saving a
    configuration and loading the file gives the same configuration, so a
    first start without a file leaves a file from which the next start
    loads the defaults. *)
Theorem X23_config_round_trip (c : Config) :
  load_config (fst (save_config c Saved)) = c
  /\ load_config (snd (fst (load_config_on_disk FileMissing Saved)))
     = Config_defaults.
Proof. split; [destruct c; reflexivity | reflexivity]. Qed.

(** X24: loading never writes to a file that exists, readable or not: the
    file is left as it was found, and the configuration returned is the one
    of [load_config]; a file with a key that is no field of [Config] gives
    the defaults for every field and one "Config load error" line. *)
Theorem X24_load_leaves_the_file (f : config_file) (o : save_outcome) :
  fst (fst (load_config_on_disk f o)) = load_config f
  /\ (f <> FileMissing -> snd (fst (load_config_on_disk f o)) = f)
  /\ (forall data k ks,
         f = FileJson data -> d_other_keys data = k :: ks ->
         load_config f = Config_defaults
         /\ exists msg, snd (load_config_on_disk f o) = [EvLog "ERROR" msg]).
Proof.
  split; [| split].
  - destruct f as [| msg | data]; cbn.
    + destruct (save_config Config_defaults o). reflexivity.
    + reflexivity.
    + destruct (Config_new data); reflexivity.
  - intros Hf. destruct f as [| msg | data]; cbn.
    + contradiction.
    + reflexivity.
    + destruct (Config_new data); reflexivity.
  - intros data k ks -> Hk. cbn. unfold Config_new. rewrite Hk.
    split; [reflexivity |]. eexists. reflexivity.
Qed.
